(** * MAITRI ai-service: emotion inference pipeline

    A shallow embedding of [src/services/emotion_detection.py] and
    [src/services/audio_processing.py].

    Numbers.  Tensor entries, probabilities, RMS values and sample values are
    modelled as real numbers ([R]): rounding of the float32 computations is
    not modelled.  The one place where IEEE semantics decides the outcome,
    the per-clip normalisation of the spectrogram (a division by the
    standard deviation), is modelled on Rocq's primitive binary64 floats.

    External libraries (base64/PIL decoding, the MediaPipe face mesh,
    OpenCV resizing, the layers of the torch networks before their final
    softmax, librosa's feature functions other than [rms]) are fields of
    backend records; the code of this repository around them is translated
    line by line. *)

From Stdlib Require Import Ascii String List Bool Arith Lia ZArith.
From Stdlib Require Import Permutation Sorted.
From Stdlib Require Import Reals Lra.
From Stdlib Require Import Floats.
Import ListNotations.

Open Scope string_scope.
Open Scope list_scope.

(** ** Python exceptions and a small exception monad *)

Inductive PyExc : Type :=
| ValueError (msg : string)
| IndexError
| AttributeError.

Inductive Result (A : Type) : Type :=
| Ok (a : A)
| Raise (e : PyExc).
Arguments Ok {A} a.
Arguments Raise {A} e.

Definition bind {A B} (m : Result A) (k : A -> Result B) : Result B :=
  match m with
  | Ok a => k a
  | Raise e => Raise e
  end.

Notation "'let*' x := m 'in' k" := (bind m (fun x => k))
  (at level 200, x name, m at level 100, k at level 200).

(** [l[i]] on a Python list: [IndexError] out of range. *)
Definition py_index {A} (l : list A) (i : nat) : Result A :=
  match nth_error l i with
  | Some x => Ok x
  | None => Raise IndexError
  end.

(** [mapM] over the comprehension's [range]. *)
Fixpoint result_map {A B} (f : A -> Result B) (l : list A) : Result (list B) :=
  match l with
  | [] => Ok []
  | x :: l' => let* y := f x in let* ys := result_map f l' in Ok (y :: ys)
  end.

(** ** The label set *)

(** [EmotionDetectionService.EMOTIONS] and [AudioProcessingService.EMOTIONS]
    (the two class attributes are the same list). *)
Definition EMOTIONS : list string :=
  ["angry"; "disgust"; "fear"; "happy"; "neutral"; "sad"; "surprise"].

(** ** Python dicts with string keys, in insertion order *)

Definition Dict (V : Type) := list (string * V).

(** [d[k] = v]: an existing key keeps its place and gets the new value, a
    new key is appended. *)
Fixpoint dict_set {V} (d : Dict V) (k : string) (v : V) : Dict V :=
  match d with
  | [] => [(k, v)]
  | (k', v') :: d' =>
      if String.eqb k k' then (k, v) :: d' else (k', v') :: dict_set d' k v
  end.

Fixpoint dict_get {V} (d : Dict V) (k : string) : option V :=
  match d with
  | [] => None
  | (k', v') :: d' => if String.eqb k k' then Some v' else dict_get d' k
  end.

Definition dict_of_list {V} (kvs : list (string * V)) : Dict V :=
  fold_left (fun d kv => dict_set d (fst kv) (snd kv)) kvs [].

(** [{EMOTIONS[i]: float(probabilities[i]) for i in range(len(EMOTIONS))}] *)
Definition prob_dict (probabilities : list R) : Result (Dict R) :=
  let* kvs := result_map
      (fun i => let* e := py_index EMOTIONS i in
                let* p := py_index probabilities i in Ok (e, p))
      (seq 0 (length EMOTIONS)) in
  Ok (dict_of_list kvs).

(** ** numpy and torch primitives over [R] *)

(** [np.argmax] on a 1-D array (numpy's [argmax] loop: the running maximum
    is replaced only when [!(x <= mp)], so the first maximum wins). *)
Fixpoint argmax_from (l : list R) (i best : nat) (mp : R) : nat :=
  match l with
  | [] => best
  | x :: l' =>
      if Rle_dec x mp then argmax_from l' (S i) best mp
      else argmax_from l' (S i) i x
  end.

Definition np_argmax (l : list R) : Result nat :=
  match l with
  | [] => Raise (ValueError "attempt to get argmax of an empty sequence")
  | x :: l' => Ok (argmax_from l' 1 0 x)
  end.

Definition list_sum (l : list R) : R := fold_right Rplus 0%R l.

Definition list_max (x : R) (l : list R) : R := fold_right Rmax x l.

(** [F.softmax(x, dim=1)] on one row: [exp (x - max) / sum exp (x - max)]. *)
Definition softmax (l : list R) : list R :=
  match l with
  | [] => []
  | x :: _ =>
      let m := list_max x l in
      let e := map (fun v => exp (v - m)) l in
      map (fun v => (v / list_sum e)%R) e
  end.

(** The denominator of [softmax (x :: l)]. *)
Definition softmax_den (x : R) (l : list R) : R :=
  list_sum (map (fun v => exp (v - list_max x (x :: l))) (x :: l)).

(** ** Schemas ([src/models/schemas.py]) *)

Record AudioFeatures : Type := {
  mfccs : list R;
  pitch : R;
  energy : R;
  spectral_centroid : R;
  zero_crossing_rate : R;
  spectral_rolloff : R;
  chroma : list R
}.

Record BoundingBox : Type := {
  bb_x : R; bb_y : R; bb_width : R; bb_height : R
}.

Record FacialLandmarks : Type := {
  landmarks : list (list R);
  visibility : list R;
  bounding_box : BoundingBox
}.

Record EmotionClassification : Type := {
  ec_emotion : string;
  ec_confidence : R;
  ec_probabilities : Dict R
}.

(** [EmotionDetectionResponse] without [wellness_score] (always left at its
    default [None] here) and without the [timestamp] filled in by
    [datetime.now]. *)
Record EmotionDetectionResponse : Type := {
  emotion : string;
  confidence : R;
  source : string;
  facial_landmarks : option (list (list R));
  audio_features : option AudioFeatures
}.

(** ** Emotion detection service ([emotion_detection.py]) *)

(** A decoded RGB image ([np.array(image)]): height, width and pixels. *)
Record Image : Type := {
  img_height : nat;
  img_width : nat;
  img_pixels : list (list (Z * Z * Z))
}.

(** One MediaPipe [NormalizedLandmark]: coordinates in [0,1] and the
    optional [visibility] attribute. *)
Record MeshPoint : Type := {
  mp_x : R; mp_y : R; mp_visibility : option R
}.

(** The face mesh is created with [static_image_mode=False]: MediaPipe
    treats successive images as a video stream and tracks the face found in
    earlier calls.  Its state is the last tracked face. *)
Definition FMState := option (list MeshPoint).

(** torch's global random generator. *)
Definition RngState := N.

(** The [48 x 48] grayscale face tensor. *)
Definition FaceTensor := list (list R).

(** The external components the service calls. *)
Record EmotionBackend : Type := {
  (** [_decode_base64_image]: prefix strip, base64, PIL, RGB; raises
      [ValueError("Invalid image data")] on failure *)
  decode_base64_image : string -> Result Image;
  (** [cv2.cvtColor] then [self.face_mesh.process]: the list
      [results.multi_face_landmarks] (empty when MediaPipe reports [None]) *)
  face_mesh_process : FMState -> Image -> FMState * list (list MeshPoint);
  (** [image[y:y+h, x:x+w]], [cv2.resize] to 48x48, [cv2.cvtColor] to gray,
      [/ 255.0] *)
  crop_resize_gray : Image -> Z -> Z -> Z -> Z -> Result FaceTensor;
  (** [EmotionCNN] up to [fc3] (eval mode, so dropout is the identity) *)
  emotion_cnn_logits : FaceTensor -> list R;
  (** [torch.randn(1, 512)] and [torch.randn(1, 128)] *)
  torch_randn : RngState -> RngState * (list R * list R);
  (** [MultimodalFusionNet] up to [classifier] (eval mode) *)
  fusion_logits : list R -> list R -> list R
}.

(** [min] / [max] of a non-empty Python list. *)
Definition py_min (l : list R) : Result R :=
  match l with
  | [] => Raise (ValueError "min() arg is an empty sequence")
  | x :: l' => Ok (fold_left Rmin l' x)
  end.

Definition py_max (l : list R) : Result R :=
  match l with
  | [] => Raise (ValueError "max() arg is an empty sequence")
  | x :: l' => Ok (fold_left Rmax l' x)
  end.

(** Python's [int()] on a float: truncation toward zero. *)
Definition py_int (r : R) : Z :=
  if Rle_dec 0 r then Int_part r else (- Int_part (- r))%Z.

Section EmotionService.

Variable B : EmotionBackend.

(** Lines 262-287 of [_extract_facial_landmarks], for the first face. *)
Definition landmarks_of_face (image : Image) (face : list MeshPoint)
    : Result FacialLandmarks :=
  let h := INR (img_height image) in
  let w := INR (img_width image) in
  let landmark_points := map (fun p => [(mp_x p * w)%R; (mp_y p * h)%R]) face in
  let visibility_scores :=
    map (fun p => match mp_visibility p with Some v => v | None => 1%R end) face in
  let x_coords := map (fun p => nth 0 p 0%R) landmark_points in
  let y_coords := map (fun p => nth 1 p 0%R) landmark_points in
  let* min_x := py_min x_coords in
  let* min_y := py_min y_coords in
  let* max_x := py_max x_coords in
  let* max_y := py_max y_coords in
  Ok {| landmarks := landmark_points;
        visibility := visibility_scores;
        bounding_box := {| bb_x := min_x; bb_y := min_y;
                           bb_width := (max_x - min_x)%R;
                           bb_height := (max_y - min_y)%R |} |}.

(** [_extract_facial_landmarks]: every exception is caught and gives
    [None]. *)
Definition extract_facial_landmarks (s : FMState) (image : Image)
    : FMState * option FacialLandmarks :=
  let (s', faces) := face_mesh_process B s image in
  match faces with
  | [] => (s', None)
  | face :: _ =>
      match landmarks_of_face image face with
      | Ok l => (s', Some l)
      | Raise _ => (s', None)
      end
  end.

(** [_preprocess_face_for_emotion]: padding of 20 pixels, clamped to the
    image. *)
Definition preprocess_face_for_emotion (image : Image) (l : FacialLandmarks)
    : Result FaceTensor :=
  let bbox := bounding_box l in
  let x := py_int (bb_x bbox) in
  let y := py_int (bb_y bbox) in
  let w := py_int (bb_width bbox) in
  let h := py_int (bb_height bbox) in
  let padding := 20%Z in
  let x := Z.max 0 (x - padding) in
  let y := Z.max 0 (y - padding) in
  let w := Z.min (Z.of_nat (img_width image) - x) (w + 2 * padding) in
  let h := Z.min (Z.of_nat (img_height image) - y) (h + 2 * padding) in
  crop_resize_gray B image x y w h.

(** [_classify_emotion] *)
Definition classify_emotion (face_tensor : FaceTensor)
    : Result EmotionClassification :=
  let probabilities := softmax (emotion_cnn_logits B face_tensor) in
  let* emotion_idx := np_argmax probabilities in
  let* emotion := py_index EMOTIONS emotion_idx in
  let* confidence := py_index probabilities emotion_idx in
  let* emotion_probs := prob_dict probabilities in
  Ok {| ec_emotion := emotion; ec_confidence := confidence;
        ec_probabilities := emotion_probs |}.

Definition no_face_response (src : string) : EmotionDetectionResponse :=
  {| emotion := "neutral"; confidence := (1/2)%R; source := src;
     facial_landmarks := None; audio_features := None |}.

(** [detect_emotion]: the face-mesh state is threaded through; the audio
    argument and the session id are not read. *)
Definition detect_emotion (s : FMState) (image_data audio_data : option string)
    (session_id : string) : FMState * Result EmotionDetectionResponse :=
  match image_data with
  | None => (s, Raise (ValueError "Image data is required for emotion detection"))
  | Some img =>
      if String.eqb img "" then
        (s, Raise (ValueError "Image data is required for emotion detection"))
      else
        match decode_base64_image B img with
        | Raise e => (s, Raise e)
        | Ok image =>
            let (s', lm) := extract_facial_landmarks s image in
            match lm with
            | None => (s', Ok (no_face_response "video"))
            | Some l =>
                (s', let* face_tensor := preprocess_face_for_emotion image l in
                     let* r := classify_emotion face_tensor in
                     Ok {| emotion := ec_emotion r; confidence := ec_confidence r;
                           source := "video";
                           facial_landmarks := Some (landmarks l);
                           audio_features := None |})
            end
        end
  end.

(** [detect_multimodal_emotion]: the face-mesh state and torch's generator
    are threaded through; [audio_data] and [session_id] are not read. *)
Definition detect_multimodal_emotion (s : FMState) (g : RngState)
    (image_data audio_data session_id : string)
    : (FMState * RngState) * Result EmotionDetectionResponse :=
  match decode_base64_image B image_data with
  | Raise e => ((s, g), Raise e)
  | Ok image =>
      let (s', lm) := extract_facial_landmarks s image in
      match lm with
      | None => ((s', g), Ok (no_face_response "audio"))
      | Some l =>
          let (g', feats) := torch_randn B g in
          let (visual_features, audio_features) := feats in
          let probabilities := softmax (fusion_logits B visual_features audio_features) in
          ((s', g'),
           let* emotion_idx := np_argmax probabilities in
           let* emotion := py_index EMOTIONS emotion_idx in
           let* confidence := py_index probabilities emotion_idx in
           Ok {| emotion := emotion; confidence := confidence; source := "multimodal";
                 facial_landmarks := Some (landmarks l); audio_features := None |})
      end
  end.

End EmotionService.

(** ** Audio processing service ([audio_processing.py]) *)

(** numpy reductions over [R]. *)
Definition np_mean (l : list R) : R := (list_sum l / INR (length l))%R.

(** [librosa.feature.rms(y=audio)] (librosa >= 0.10 defaults:
    [frame_length=2048], [hop_length=512], [center=True],
    [pad_mode="constant"]): the clip is padded with [frame_length // 2]
    zeros on both sides and cut into frames of 2048 samples every 512
    samples; each frame gives [sqrt(mean(|x|**2))].  Row [0] of the result. *)
Definition frame_length := 2048%nat.
Definition hop_length := 512%nat.

Definition rms_frame (frame : list R) : R :=
  R_sqrt.sqrt (list_sum (map (fun v => (v * v)%R) frame) / INR frame_length).

Definition librosa_rms (y : list R) : list R :=
  let pad := repeat 0%R (frame_length / 2) in
  let padded := (pad ++ y ++ pad)%list in
  let n_frames := S ((length padded - frame_length) / hop_length) in
  map (fun t => rms_frame (firstn frame_length (skipn (hop_length * t) padded)))
      (seq 0 n_frames).

(** Matrices of binary64 floats (the log-mel spectrogram, [n_mels] rows of
    frames; float32 in the code). *)
Definition FMatrix := list (list float).

Definition float_of_nat (n : nat) : float := of_uint63 (Uint63.of_Z (Z.of_nat n)).

Definition fsum (l : list float) : float := fold_left add l zero.

Definition np_size (m : FMatrix) : nat := length (concat m).

(** [np.mean(m)]: sum of all entries over their number. *)
Definition np_mean2 (m : FMatrix) : float :=
  (fsum (concat m) / float_of_nat (np_size m))%float.

(** [np.std(m)]: [sqrt(mean(abs(m - mean(m))**2))]. *)
Definition np_std2 (m : FMatrix) : float :=
  let mu := np_mean2 m in
  let sq := map (map (fun x => ((x - mu) * (x - mu))%float)) m in
  PrimFloat.sqrt (fsum (concat sq) / float_of_nat (np_size m))%float.

(** [log_mel_spec.shape[1]] *)
Definition n_cols (m : FMatrix) : nat :=
  match m with
  | [] => 0
  | r :: _ => length r
  end.

(** Lines 164-176 of [_create_spectrogram], from the log-mel spectrogram:
    normalisation, fixed width of 128 frames, two [unsqueeze(0)]. *)
Definition normalize_spec (m : FMatrix) : FMatrix :=
  let mu := np_mean2 m in
  let sd := np_std2 m in
  map (map (fun x => ((x - mu) / sd)%float)) m.

Definition fix_width (m : FMatrix) : FMatrix :=
  if Nat.ltb 128 (n_cols m) then map (firstn 128) m
  else
    let pad_width := (128 - n_cols m)%nat in
    map (fun r => (r ++ repeat zero pad_width)%list) m.

Definition spectrogram_of_log_mel (log_mel_spec : FMatrix) : list (list FMatrix) :=
  [[fix_width (normalize_spec log_mel_spec)]].

(** The external components of the audio service. *)
Record AudioBackend : Type := {
  (** [_decode_base64_audio]: prefix strip, base64, [librosa.load] at
      22050 Hz; raises [ValueError("Invalid audio data")] on failure *)
  decode_base64_audio : string -> Result (list R);
  (** [librosa.feature.mfcc(n_mfcc=13)]: 13 rows of frames *)
  librosa_mfcc : list R -> list (list R);
  (** the [pitches] array of [librosa.piptrack] *)
  librosa_piptrack : list R -> list (list R);
  (** row [0] of [spectral_centroid], [zero_crossing_rate],
      [spectral_rolloff] *)
  librosa_spectral_centroid : list R -> list R;
  librosa_zero_crossing_rate : list R -> list R;
  librosa_spectral_rolloff : list R -> list R;
  (** [librosa.feature.chroma_stft]: 12 rows of frames *)
  librosa_chroma_stft : list R -> list (list R);
  (** [melspectrogram(n_mels=128, fmax=8000)] then [power_to_db(ref=np.max)] *)
  librosa_log_mel : list R -> FMatrix;
  (** [AudioEmotionCNN] up to [fc3] (eval mode) *)
  audio_cnn_logits : list (list FMatrix) -> list R
}.

Record AudioEmotionResult : Type := {
  ar_emotion : string;
  ar_confidence : R;
  ar_audio_features : AudioFeatures;
  ar_probabilities : Dict R
}.

Section AudioService.

Variable A : AudioBackend.

(** [extract_audio_features] *)
Definition extract_audio_features (audio : list R) : AudioFeatures :=
  let mfcc_mean := map np_mean (librosa_mfcc A audio) in
  let pitches := concat (librosa_piptrack A audio) in
  let positive := filter (fun v => if Rlt_dec 0 v then true else false) pitches in
  let pitch := match positive with [] => 0%R | _ => np_mean positive end in
  let energy := np_mean (librosa_rms audio) in
  let spectral_centroid := np_mean (librosa_spectral_centroid A audio) in
  let zero_crossing_rate := np_mean (librosa_zero_crossing_rate A audio) in
  let spectral_rolloff := np_mean (librosa_spectral_rolloff A audio) in
  let chroma_mean := map np_mean (librosa_chroma_stft A audio) in
  {| mfccs := mfcc_mean; pitch := pitch; energy := energy;
     spectral_centroid := spectral_centroid;
     zero_crossing_rate := zero_crossing_rate;
     spectral_rolloff := spectral_rolloff; chroma := chroma_mean |}.

(** [_create_spectrogram] *)
Definition create_spectrogram (audio : list R) : list (list FMatrix) :=
  spectrogram_of_log_mel (librosa_log_mel A audio).

(** [detect_emotion_from_audio] *)
Definition detect_emotion_from_audio (audio_data : string)
    : Result AudioEmotionResult :=
  let* audio := decode_base64_audio A audio_data in
  let features := extract_audio_features audio in
  let spectrogram := create_spectrogram audio in
  let probabilities := softmax (audio_cnn_logits A spectrogram) in
  let* emotion_idx := np_argmax probabilities in
  let* emotion := py_index EMOTIONS emotion_idx in
  let* confidence := py_index probabilities emotion_idx in
  let* probs := prob_dict probabilities in
  Ok {| ar_emotion := emotion; ar_confidence := confidence;
        ar_audio_features := features; ar_probabilities := probs |}.

End AudioService.

(** ** Concrete backends

    Instances of the external components, used to evaluate the code at
    explicit inputs.  Their values are stand-ins chosen for the input at
    hand (a decoder that always yields the same frame, a classifier head
    with fixed logits), not a model of the real libraries. *)

Module Demo.

Definition image0 : Image :=
  {| img_height := 200; img_width := 200; img_pixels := [] |}.

(** Two mesh points of a detected face. *)
Definition face0 : list MeshPoint :=
  [ {| mp_x := (1/2)%R; mp_y := (1/2)%R; mp_visibility := Some 1%R |};
    {| mp_x := (3/5)%R; mp_y := (3/5)%R; mp_visibility := Some 1%R |} ].

(** Logits of a classifier head whose largest score is on "happy". *)
Definition happy_logits : list R := [0; 0; 0; 1; 0; 0; 0]%R.

(** A face mesh that finds no face in the frame. *)
Definition no_face_backend : EmotionBackend := {|
  decode_base64_image := fun _ => Ok image0;
  face_mesh_process := fun s _ => (s, []);
  crop_resize_gray := fun _ _ _ _ _ => Ok [[0%R]];
  emotion_cnn_logits := fun _ => happy_logits;
  torch_randn := fun g => (N.succ g, (repeat 0%R 512, repeat 0%R 128));
  fusion_logits := fun _ _ => happy_logits |}.

(** A face mesh that reports [face0] from a fresh state and no face once it
    holds a tracked face (then it resets). *)
Definition tracking_backend : EmotionBackend := {|
  decode_base64_image := fun _ => Ok image0;
  face_mesh_process := fun s _ =>
    match s with
    | None => (Some face0, [face0])
    | Some _ => (None, [])
    end;
  crop_resize_gray := fun _ _ _ _ _ => Ok [[0%R]];
  emotion_cnn_logits := fun _ => happy_logits;
  torch_randn := fun g => (N.succ g, (repeat 0%R 512, repeat 0%R 128));
  fusion_logits := fun _ _ => happy_logits |}.



(** The softmax of [happy_logits] and the dict and classification that
    [_classify_emotion] builds from it. *)
Definition happy_probs : list R := softmax happy_logits.

Definition happy_dict : Dict R := combine EMOTIONS happy_probs.

Definition happy_classification : EmotionClassification :=
  {| ec_emotion := "happy"; ec_confidence := nth 3 happy_probs 0%R;
     ec_probabilities := happy_dict |}.

(** 100 samples of a constant, non-silent signal (well under one analysis
    frame of 2048 samples). *)
Definition short_clip : list R := repeat (1/2)%R 100.

Definition audio_backend : AudioBackend := {|
  decode_base64_audio := fun _ => Ok short_clip;
  librosa_mfcc := fun _ => repeat [0%R] 13;
  librosa_piptrack := fun _ => [[0%R]];
  librosa_spectral_centroid := fun _ => [0%R];
  librosa_zero_crossing_rate := fun _ => [0%R];
  librosa_spectral_rolloff := fun _ => [0%R];
  librosa_chroma_stft := fun _ => repeat [0%R] 12;
  librosa_log_mel := fun _ => [[zero; one]; [one; zero]];
  audio_cnn_logits := fun _ => happy_logits |}.

(** What [detect_emotion_from_audio] returns for [short_clip] on
    [audio_backend]. *)
Definition happy_audio_result : AudioEmotionResult :=
  {| ar_emotion := "happy"; ar_confidence := nth 3 happy_probs 0%R;
     ar_audio_features := extract_audio_features audio_backend short_clip;
     ar_probabilities := happy_dict |}.

(** The log-mel spectrogram of a silent 0.5 s clip at 22050 Hz: 128 mel
    bands, [1 + 11025 // 512 = 22] frames.  [melspectrogram] of zeros is
    zero, and [power_to_db(S, ref=np.max)] maps it to
    [10*log10(1e-10) - 10*log10(1e-10) = 0] everywhere ([top_db] keeps 0). *)
Definition silent_log_mel : FMatrix := repeat (repeat zero 22) 128.

(** A silent 0.5 s clip and an audio backend whose librosa front end gives
    [silent_log_mel] for it. *)
Definition silent_clip : list R := repeat 0%R 11025.

Definition silent_audio_backend : AudioBackend := {|
  decode_base64_audio := fun _ => Ok silent_clip;
  librosa_mfcc := fun _ => repeat [0%R] 13;
  librosa_piptrack := fun _ => [[0%R]];
  librosa_spectral_centroid := fun _ => [0%R];
  librosa_zero_crossing_rate := fun _ => [0%R];
  librosa_spectral_rolloff := fun _ => [0%R];
  librosa_chroma_stft := fun _ => repeat [0%R] 12;
  librosa_log_mel := fun _ => silent_log_mel;
  audio_cnn_logits := fun _ => happy_logits |}.

End Demo.

(** ** Predicates used in the statements *)

(** [np.isfinite] *)
Definition all_finite (t : list (list FMatrix)) : bool :=
  forallb (forallb (forallb (forallb is_finite))) t.

(** numpy arrays are rectangular. *)
Definition is_rectangular (m : FMatrix) : bool :=
  forallb (fun r => Nat.eqb (length r) (n_cols m)) m.

(** [i] is the first index of a maximum of [l]. *)
Definition first_max (l : list R) (i : nat) : Prop :=
  (i < length l)%nat /\
  (forall j, (j < length l)%nat -> (nth j l 0 <= nth i l 0)%R) /\
  (forall j, (j < i)%nat -> (nth j l 0 < nth i l 0)%R).

(** A probability dict over the label set: one key per label of
    [EMOTIONS], in that order, non-negative values summing to 1. *)
Definition label_distribution (d : Dict R) : Prop :=
  map fst d = EMOTIONS /\ NoDup (map fst d) /\
  Forall (fun p => 0 <= p)%R (map snd d) /\ list_sum (map snd d) = 1%R.

(** ** Decoding of the base64 payloads *)

(** [s.split(sep)] for a one-character separator. *)
Fixpoint py_split (sep : Ascii.ascii) (s : string) : list string :=
  match s with
  | EmptyString => [""]
  | String a rest =>
      let parts := py_split sep rest in
      if Ascii.eqb a sep then "" :: parts
      else match parts with
           | p :: ps => String a p :: ps
           | [] => [String a ""]
           end
  end.

(** [try: ... except Exception: raise ValueError(msg)] *)
Definition reraise_as {A} (msg : string) (r : Result A) : Result A :=
  match r with
  | Ok v => Ok v
  | Raise _ => Raise (ValueError msg)
  end.

(** [base64.b64decode] and PIL, for [_decode_base64_image]. *)
Record ImageCodec : Type := {
  PILImage : Type;
  b64decode_image : string -> Result (list Byte.byte);
  pil_open : list Byte.byte -> Result PILImage;
  pil_mode : PILImage -> string;
  pil_convert_rgb : PILImage -> Result PILImage;
  np_array : PILImage -> Image
}.

(** [EmotionDetectionService._decode_base64_image]; [None] has no
    [startswith] ([AttributeError]), and a data URL without a comma has no
    [split(',')[1]] ([IndexError]); both are turned into the [ValueError]. *)
Definition decode_base64_image_py (C : ImageCodec) (image_data : option string)
    : Result Image :=
  reraise_as "Invalid image data"
    (let* data :=
       match image_data with
       | None => Raise AttributeError
       | Some d =>
           if String.prefix "data:image" d then py_index (py_split ","%char d) 1
           else Ok d
       end in
     let* image_bytes := b64decode_image C data in
     let* image := pil_open C image_bytes in
     let* image :=
       if String.eqb (pil_mode C image) "RGB" then Ok image
       else pil_convert_rgb C image in
     Ok (np_array C image)).

(** [AudioProcessingService.sample_rate] *)
Definition sample_rate : R := 22050%R.

(** [base64.b64decode] and [librosa.load(..., sr=...)], which returns the
    resampled signal and the rate. *)
Record AudioCodec : Type := {
  b64decode_audio : string -> Result (list Byte.byte);
  librosa_load : list Byte.byte -> R -> Result (list R * R)
}.

(** [AudioProcessingService._decode_base64_audio] *)
Definition decode_base64_audio_py (C : AudioCodec) (audio_data : string)
    : Result (list R) :=
  reraise_as "Invalid audio data"
    (let* data :=
       if String.prefix "data:audio" audio_data
       then py_index (py_split ","%char audio_data) 1
       else Ok audio_data in
     let* audio_bytes := b64decode_audio C data in
     let* loaded := librosa_load C audio_bytes sample_rate in
     Ok (fst loaded)).

(** ** Model loading and health *)

(** The network object a service holds: weights read from the [.pth] file,
    random initial weights (the file is missing), or a network whose
    [load_state_dict] raised. *)
Inductive Weights : Type := Pretrained | RandomInit | LoadRaised.

(** What [model.load_state_dict(torch.load(model_path, ...))] does: it loads,
    [torch.load] raises [FileNotFoundError], or some other exception is
    raised (a corrupt file, mismatching keys or shapes). *)
Inductive LoadOutcome : Type :=
| Loaded
| WeightsMissing
| LoadFailed (e : PyExc).

(** [schemas.ModelStatus] (the optional fields stay [None]); times are
    [datetime.now()] readings. *)
Record ModelStatus : Type := {
  ms_model_name : string;
  ms_status : string;
  ms_version : string;
  ms_last_updated : nat
}.

Definition new_model_status (name : string) (now : nat) : ModelStatus :=
  {| ms_model_name := name; ms_status := "not_loaded"; ms_version := "1.0.0";
     ms_last_updated := now |}.

(** [status.status = msg; status.last_updated = datetime.now()] *)
Definition mark_status (m : ModelStatus) (msg : string) (now : nat) : ModelStatus :=
  {| ms_model_name := ms_model_name m; ms_status := msg; ms_version := ms_version m;
     ms_last_updated := now |}.

(** [status.status = "error"] (the time is not updated). *)
Definition mark_error (m : ModelStatus) : ModelStatus :=
  {| ms_model_name := ms_model_name m; ms_status := "error"; ms_version := ms_version m;
     ms_last_updated := ms_last_updated m |}.

(** The fields of [EmotionDetectionService] that loading touches. *)
Record EmotionServiceState : Type := {
  es_emotion_model : option Weights;
  es_multimodal_model : option Weights;
  es_face_detection : bool;
  es_face_mesh : bool;
  es_status_cnn : ModelStatus;
  es_status_fusion : ModelStatus
}.

(** [EmotionDetectionService.__init__] *)
Definition emotion_service_new (now : nat) : EmotionServiceState :=
  {| es_emotion_model := None; es_multimodal_model := None;
     es_face_detection := false; es_face_mesh := false;
     es_status_cnn := new_model_status "emotion_cnn" now;
     es_status_fusion := new_model_status "multimodal_fusion" now |}.

Definition set_emotion_model (st : EmotionServiceState) (m : option Weights)
    (s : ModelStatus) : EmotionServiceState :=
  {| es_emotion_model := m; es_multimodal_model := es_multimodal_model st;
     es_face_detection := es_face_detection st; es_face_mesh := es_face_mesh st;
     es_status_cnn := s; es_status_fusion := es_status_fusion st |}.

Definition set_multimodal_model (st : EmotionServiceState) (m : option Weights)
    (s : ModelStatus) : EmotionServiceState :=
  {| es_emotion_model := es_emotion_model st; es_multimodal_model := m;
     es_face_detection := es_face_detection st; es_face_mesh := es_face_mesh st;
     es_status_cnn := es_status_cnn st; es_status_fusion := s |}.

(** [_load_emotion_model]: the network is assigned before its weights are
    loaded; [FileNotFoundError] is caught (both device branches), any other
    exception marks the status ["error"] and is re-raised. *)
Definition load_emotion_model (o : LoadOutcome) (now : nat) (st : EmotionServiceState)
    : EmotionServiceState * Result unit :=
  match o with
  | Loaded => (set_emotion_model st (Some Pretrained)
                 (mark_status (es_status_cnn st) "loaded" now), Ok tt)
  | WeightsMissing => (set_emotion_model st (Some RandomInit)
                         (mark_status (es_status_cnn st) "loaded" now), Ok tt)
  | LoadFailed e => (set_emotion_model st (Some LoadRaised)
                       (mark_error (es_status_cnn st)), Raise e)
  end.

(** [_load_multimodal_model], the same shape. *)
Definition load_multimodal_model (o : LoadOutcome) (now : nat) (st : EmotionServiceState)
    : EmotionServiceState * Result unit :=
  match o with
  | Loaded => (set_multimodal_model st (Some Pretrained)
                 (mark_status (es_status_fusion st) "loaded" now), Ok tt)
  | WeightsMissing => (set_multimodal_model st (Some RandomInit)
                         (mark_status (es_status_fusion st) "loaded" now), Ok tt)
  | LoadFailed e => (set_multimodal_model st (Some LoadRaised)
                       (mark_error (es_status_fusion st)), Raise e)
  end.


(** The MediaPipe part of [initialize]: [FaceDetection(...)] then
    [FaceMesh(...)], each of which may raise. *)
Definition init_mediapipe (det mesh : Result unit) (st : EmotionServiceState)
    : EmotionServiceState * Result unit :=
  match det with
  | Raise e => (st, Raise e)
  | Ok _ =>
      let st1 := {| es_emotion_model := es_emotion_model st;
                    es_multimodal_model := es_multimodal_model st;
                    es_face_detection := true; es_face_mesh := es_face_mesh st;
                    es_status_cnn := es_status_cnn st;
                    es_status_fusion := es_status_fusion st |} in
      match mesh with
      | Raise e => (st1, Raise e)
      | Ok _ =>
          ({| es_emotion_model := es_emotion_model st1;
              es_multimodal_model := es_multimodal_model st1;
              es_face_detection := true; es_face_mesh := true;
              es_status_cnn := es_status_cnn st1;
              es_status_fusion := es_status_fusion st1 |}, Ok tt)
      end
  end.

(** [_load_emotion_model(); _load_multimodal_model()]: the second runs only
    if the first returned. *)
Definition load_both_models (o_cnn o_fusion : LoadOutcome) (now : nat)
    (st : EmotionServiceState) : EmotionServiceState * Result unit :=
  let (st1, r) := load_emotion_model o_cnn now st in
  match r with
  | Raise e => (st1, Raise e)
  | Ok _ => load_multimodal_model o_fusion now st1
  end.

(** [EmotionDetectionService.initialize] *)
Definition emotion_service_initialize (det mesh : Result unit)
    (o_cnn o_fusion : LoadOutcome) (now : nat) (st : EmotionServiceState)
    : EmotionServiceState * Result unit :=
  let (st1, r) := init_mediapipe det mesh st in
  match r with
  | Raise e => (st1, Raise e)
  | Ok _ => load_both_models o_cnn o_fusion now st1
  end.

(** [EmotionDetectionService.reload_models] *)
Definition emotion_service_reload (o_cnn o_fusion : LoadOutcome) (now : nat)
    (st : EmotionServiceState) : EmotionServiceState * Result unit :=
  load_both_models o_cnn o_fusion now st.

(** [x is not None] *)
Definition is_not_none {T} (o : option T) : bool :=
  match o with Some _ => true | None => false end.

(** The dict of [EmotionDetectionService.health_check]; a torch module is
    truthy, so [self.emotion_model and self.multimodal_model] tests that
    both are set. *)
Record EmotionHealth : Type := {
  eh_status : string;
  eh_emotion_cnn : bool;
  eh_multimodal_fusion : bool;
  eh_mediapipe : bool;
  eh_device : string
}.

Definition emotion_health_check (device : string) (st : EmotionServiceState)
    : EmotionHealth :=
  {| eh_status := if is_not_none (es_emotion_model st) && is_not_none (es_multimodal_model st)
                  then "ready" else "not_ready";
     eh_emotion_cnn := is_not_none (es_emotion_model st);
     eh_multimodal_fusion := is_not_none (es_multimodal_model st);
     eh_mediapipe := es_face_detection st && es_face_mesh st;
     eh_device := device |}.

(** The fields of [AudioProcessingService] that loading touches. *)
Record AudioServiceState : Type := {
  as_audio_model : option Weights;
  as_status : ModelStatus
}.

(** [AudioProcessingService.__init__] *)
Definition audio_service_new (now : nat) : AudioServiceState :=
  {| as_audio_model := None; as_status := new_model_status "audio_emotion_cnn" now |}.

(** [AudioProcessingService.initialize] (also what [reload_models] runs):
    the network is assigned first; [FileNotFoundError] is caught; any other
    exception marks the status ["error"] and is re-raised. *)
Definition audio_service_initialize (o : LoadOutcome) (now : nat) (st : AudioServiceState)
    : AudioServiceState * Result unit :=
  match o with
  | Loaded => ({| as_audio_model := Some Pretrained;
                  as_status := mark_status (as_status st) "loaded" now |}, Ok tt)
  | WeightsMissing => ({| as_audio_model := Some RandomInit;
                          as_status := mark_status (as_status st) "loaded" now |}, Ok tt)
  | LoadFailed e => ({| as_audio_model := Some LoadRaised;
                        as_status := mark_error (as_status st) |}, Raise e)
  end.

(** The dict of [AudioProcessingService.health_check]. *)
Record AudioHealth : Type := {
  ah_status : string;
  ah_model_loaded : bool;
  ah_device : string
}.

Definition audio_health_check (device : string) (st : AudioServiceState) : AudioHealth :=
  {| ah_status := if is_not_none (as_audio_model st) then "ready" else "not_ready";
     ah_model_loaded := is_not_none (as_audio_model st);
     ah_device := device |}.

(** ** Speech patterns *)

(** [np.sort] (as an insertion sort; only the sorted values matter). *)
Fixpoint insert_R (x : R) (l : list R) : list R :=
  match l with
  | [] => [x]
  | y :: l' => if Rle_dec x y then x :: y :: l' else y :: insert_R x l'
  end.

Fixpoint sort_R (l : list R) : list R :=
  match l with
  | [] => []
  | x :: l' => insert_R x (sort_R l')
  end.

(** [np.percentile(a, q)] with numpy's default [linear] method: the value
    at the virtual index [q/100 * (n-1)] of the sorted array, interpolated
    between its two neighbours.  (Only called here on the RMS frames, of
    which there is at least one.) *)
Definition np_percentile (a : list R) (q : R) : R :=
  let s := sort_R a in
  let n := length s in
  let idx := (q / 100 * INR (n - 1))%R in
  let lo := Z.to_nat (Int_part idx) in
  let hi := Nat.min (S lo) (n - 1) in
  let t := (idx - INR lo)%R in
  (nth lo s 0 + (nth hi s 0 - nth lo s 0) * t)%R.

(** [np.std] (population standard deviation). *)
Definition np_std (l : list R) : R :=
  R_sqrt.sqrt (np_mean (map (fun x => (x - np_mean l) * (x - np_mean l))%R l)).

(** [np.sum] of a boolean array. *)
Definition count_true (l : list bool) : nat := length (filter (fun b => b) l).

(** The dict of [detect_speech_patterns]. *)
Record SpeechPatterns : Type := {
  speaking_rate : R;
  pitch_variation : R;
  energy_variation : R;
  voice_activity_ratio : R
}.

Section SpeechAnalysis.

Variable A : AudioBackend.

(** [AudioProcessingService.detect_speech_patterns].  Its [except] branch
    (returning [{}]) is not reached: none of the steps raises on a signal.
    [librosa.frames_to_time(1, sr)] is [1 * hop_length / sr]. *)
Definition detect_speech_patterns (audio : list R) : SpeechPatterns :=
  let energy_threshold := np_percentile (librosa_rms audio) 30 in
  let voice_segments :=
    map (fun e => if Rlt_dec energy_threshold e then true else false) (librosa_rms audio) in
  let frame_rate := (INR hop_length / sample_rate)%R in
  let speaking_time := (INR (count_true voice_segments) * frame_rate)%R in
  let speaking_rate :=
    if Rlt_dec 0 speaking_time
    then (INR (length audio) / sample_rate / speaking_time)%R else 0%R in
  let pitches := concat (librosa_piptrack A audio) in
  let valid_pitches := filter (fun v => if Rlt_dec 0 v then true else false) pitches in
  let pitch_variation :=
    match valid_pitches with [] => 0%R | _ => np_std valid_pitches end in
  let energy := librosa_rms audio in
  let energy_variation := np_std energy in
  {| speaking_rate := speaking_rate; pitch_variation := pitch_variation;
     energy_variation := energy_variation;
     voice_activity_ratio :=
       np_mean (map (fun b : bool => if b then 1%R else 0%R) voice_segments) |}.

End SpeechAnalysis.

(** ** The [/emotion/detect] endpoint of [app.py] *)

(** [schemas.EmotionDetectionRequest] *)
Record EmotionDetectionRequest : Type := {
  req_image_data : option string;
  req_audio_data : option string;
  req_session_id : string
}.

(** A response body, or an [HTTPException(status_code, detail)]. *)
Inductive HttpResult (A : Type) : Type :=
| HttpOk (v : A)
| HttpError (status_code : Z) (detail : string).
Arguments HttpOk {A} v.
Arguments HttpError {A} status_code detail.

(** [str(e)] *)
Definition exc_str (e : PyExc) : string :=
  match e with
  | ValueError msg => msg
  | IndexError => "list index out of range"
  | AttributeError => "'NoneType' object has no attribute 'startswith'"
  end.

(** [app.detect_emotion]: the global [emotion_service] is [None] or a
    service, given here by its face-mesh state. *)
Definition api_detect_emotion (B : EmotionBackend) (svc : option FMState)
    (request : EmotionDetectionRequest)
    : option FMState * HttpResult EmotionDetectionResponse :=
  match svc with
  | None => (None, HttpError 503 "Emotion detection service not available")
  | Some s =>
      let (s', r) := detect_emotion B s (req_image_data request)
                       (req_audio_data request) (req_session_id request) in
      (Some s', match r with
                | Ok result => HttpOk result
                | Raise e => HttpError 500 ("Emotion detection failed: " ++ exc_str e)%string
                end)
  end.

(** Concrete codecs: a base64 decoder that accepts the payload ["aW1n"]
    (resp. any payload), a PIL that opens every byte string as an RGB
    image, and a [librosa.load] that returns a fixed clip. *)
Module DemoCodecs.

Definition image_codec : ImageCodec := {|
  PILImage := Image;
  b64decode_image := fun d =>
    if String.eqb d "aW1n" then Ok [] else Raise (ValueError "Incorrect padding");
  pil_open := fun _ => Ok Demo.image0;
  pil_mode := fun _ => "RGB";
  pil_convert_rgb := fun i => Ok i;
  np_array := fun i => i |}.

Definition audio_codec : AudioCodec := {|
  b64decode_audio := fun _ => Ok [];
  librosa_load := fun _ sr => Ok (Demo.short_clip, sr) |}.

End DemoCodecs.

(** ** Lemmas on IEEE division *)

Lemma Prim2SF_zero : Prim2SF zero = S754_zero false.
Proof. reflexivity. Qed.

Lemma Prim2SF_infinity : Prim2SF infinity = S754_infinity false.
Proof. reflexivity. Qed.

Lemma eqb_zero_Prim2SF (y : float) :
  (y =? zero)%float = true -> exists b, Prim2SF y = S754_zero b.
Proof.
  rewrite eqb_spec, Prim2SF_zero.
  destruct (Prim2SF y) as [b| b | |b m e]; cbn; intro H; try discriminate.
  - eauto.
  - destruct b; discriminate.
  - destruct b; discriminate.
Qed.

(** Dividing by a (signed) zero never gives a finite float. *)
Lemma div_zero_not_finite (x y : float) :
  (y =? zero)%float = true -> is_finite (x / y) = false.
Proof.
  intros Hy. destruct (eqb_zero_Prim2SF y Hy) as [b Hb].
  assert (Hd : Prim2SF (x / y) = S754_nan \/
               exists s, Prim2SF (x / y) = S754_infinity s).
  { rewrite div_spec, Hb. unfold SF64div, SFdiv.
    destruct (Prim2SF x); eauto. }
  unfold is_finite, is_nan, is_infinity.
  rewrite !eqb_spec, abs_spec, Prim2SF_infinity.
  destruct Hd as [Hd | [s Hd]]; rewrite Hd; [reflexivity|].
  destruct s; reflexivity.
Qed.

(** ** Lemmas on the spectrogram builder *)

Lemma normalize_spec_shape (m : FMatrix) :
  map (@length float) (normalize_spec m) = map (@length float) m.
Proof.
  unfold normalize_spec. rewrite map_map.
  apply map_ext. intro r. apply length_map.
Qed.

Lemma n_cols_normalize (m : FMatrix) : n_cols (normalize_spec m) = n_cols m.
Proof. unfold normalize_spec. destruct m; cbn; [reflexivity|]. apply length_map. Qed.

Lemma is_rectangular_spec (m : FMatrix) :
  is_rectangular m = true -> forall r, In r m -> length r = n_cols m.
Proof.
  unfold is_rectangular. rewrite forallb_forall. intros H r Hr.
  apply Nat.eqb_eq, H, Hr.
Qed.

Lemma in_normalize_spec (m : FMatrix) r :
  In r (normalize_spec m) ->
  exists r0, In r0 m /\ r = map (fun x => ((x - np_mean2 m) / np_std2 m)%float) r0.
Proof.
  unfold normalize_spec. intro H. apply in_map_iff in H.
  destruct H as [r0 [Hr0 Hin]]. eauto.
Qed.

Lemma in_fix_width (m : FMatrix) r :
  In r (fix_width m) ->
  exists r0, In r0 m /\
    ((128 < n_cols m)%nat /\ r = firstn 128 r0 \/
     (n_cols m <= 128)%nat /\ r = (r0 ++ repeat zero (128 - n_cols m))%list).
Proof.
  unfold fix_width. destruct (Nat.ltb 128 (n_cols m)) eqn:E; intro H;
    apply in_map_iff in H; destruct H as [r0 [Hr Hin]]; exists r0; split; auto.
  - left. split; [apply Nat.ltb_lt; exact E | auto].
  - right. split; [apply Nat.ltb_ge; exact E | auto].
Qed.

(** ** C6: fixed time axis *)

(** C6.  For every mono clip, whatever its length, the spectrogram builder
    returns a tensor [[rows]] with one row per mel band of the log-mel
    spectrogram and exactly 128 frames per row (truncation when longer,
    zero-padding when shorter). *)
Theorem create_spectrogram_fixed_frames (A : AudioBackend) (audio : list R) :
  is_rectangular (librosa_log_mel A audio) = true ->
  exists rows, create_spectrogram A audio = [[rows]] /\
    length rows = length (librosa_log_mel A audio) /\
    Forall (fun r => length r = 128%nat) rows.
Proof.
  intros Hrect. set (m := librosa_log_mel A audio) in *.
  exists (fix_width (normalize_spec m)). split; [reflexivity|]. split.
  - unfold fix_width. destruct (Nat.ltb _ _); rewrite length_map;
      unfold normalize_spec; apply length_map.
  - apply Forall_forall. intros r Hr.
    destruct (in_fix_width _ _ Hr) as [r0 [Hin Hcase]].
    destruct (in_normalize_spec _ _ Hin) as [r1 [Hin1 ->]].
    pose proof (is_rectangular_spec _ Hrect _ Hin1) as Hlen.
    rewrite n_cols_normalize in Hcase.
    destruct Hcase as [[Hlt ->] | [Hle ->]].
    + rewrite length_firstn, length_map. lia.
    + rewrite length_app, length_map, repeat_length. lia.
Qed.

(** ** C3: zero standard deviation *)

Lemma nth_normalized_row (m : FMatrix) r1 k :
  (k < length r1)%nat ->
  nth k (map (fun x => ((x - np_mean2 m) / np_std2 m)%float) r1) zero =
  ((nth k r1 zero - np_mean2 m) / np_std2 m)%float.
Proof.
  intro Hk.
  rewrite (nth_indep _ zero ((zero - np_mean2 m) / np_std2 m)%float)
    by (rewrite length_map; exact Hk).
  apply (map_nth (fun x => ((x - np_mean2 m) / np_std2 m)%float)).
Qed.

(** C3 (as the code has it).  No epsilon replaces a zero standard deviation:
    when [np.std] of the log-mel spectrogram is zero (as for a silent clip),
    the builder divides by it, so every entry of the clip's own frames in the
    returned tensor is NaN or infinite, and only the padding frames hold
    [0]; numpy does not raise on this division, so a tensor is returned. *)
Theorem create_spectrogram_zero_std (A : AudioBackend) (audio : list R) :
  (np_std2 (librosa_log_mel A audio) =? zero)%float = true ->
  is_rectangular (librosa_log_mel A audio) = true ->
  exists rows, create_spectrogram A audio = [[rows]] /\
    Forall (fun r =>
      (forall k, (k < Nat.min (n_cols (librosa_log_mel A audio)) 128)%nat ->
         is_finite (nth k r zero) = false) /\
      (forall k, (n_cols (librosa_log_mel A audio) <= k < 128)%nat ->
         nth k r zero = zero)) rows.
Proof.
  intros Hstd Hrect. set (m := librosa_log_mel A audio) in *.
  exists (fix_width (normalize_spec m)). split; [reflexivity|].
  apply Forall_forall. intros r Hr.
  destruct (in_fix_width _ _ Hr) as [r0 [Hin Hcase]].
  destruct (in_normalize_spec _ _ Hin) as [r1 [Hin1 ->]].
  pose proof (is_rectangular_spec _ Hrect _ Hin1) as Hlen.
  rewrite n_cols_normalize in Hcase.
  destruct Hcase as [[Hlt ->] | [Hle ->]]; split; intros k Hk.
  - rewrite nth_firstn. replace (k <? 128)%nat with true by (symmetry; apply Nat.ltb_lt; lia).
    rewrite nth_normalized_row by lia. apply div_zero_not_finite, Hstd.
  - lia.
  - rewrite app_nth1 by (rewrite length_map; lia).
    rewrite nth_normalized_row by lia. apply div_zero_not_finite, Hstd.
  - rewrite app_nth2 by (rewrite length_map; lia).
    apply nth_repeat.
Qed.

(** ** C1: no image *)

(** C1 (as the code has it).  [detect_emotion] requires an image: with no
    image (or an empty string) it raises
    [ValueError("Image data is required for emotion detection")] whatever
    the audio, before any decoding, and the face mesh is left untouched. *)
Theorem detect_emotion_without_image (B : EmotionBackend) (s : FMState)
    (audio_data : option string) (session_id : string) :
  detect_emotion B s None audio_data session_id =
    (s, Raise (ValueError "Image data is required for emotion detection")) /\
  detect_emotion B s (Some "") audio_data session_id =
    (s, Raise (ValueError "Image data is required for emotion detection")).
Proof. split; reflexivity. Qed.

(** ** C4: no face found *)

(** C4.  When the image decodes and the face mesh reports no face,
    [detect_emotion] returns [{emotion="neutral", confidence=0.5,
    source="video", facial_landmarks=None}] and does not raise, whatever the
    audio argument. *)
Theorem detect_emotion_no_face (B : EmotionBackend) (s : FMState)
    (img : string) (audio_data : option string) (session_id : string)
    (image : Image) :
  img <> "" ->
  decode_base64_image B img = Ok image ->
  snd (face_mesh_process B s image) = [] ->
  snd (detect_emotion B s (Some img) audio_data session_id) =
    Ok {| emotion := "neutral"; confidence := (1/2)%R; source := "video";
          facial_landmarks := None; audio_features := None |}.
Proof.
  intros Hne Hdec Hnone. unfold detect_emotion.
  destruct (String.eqb_spec img "") as [Heq | _]; [contradiction|].
  rewrite Hdec. unfold extract_facial_landmarks.
  destruct (face_mesh_process B s image) as [s' faces]. cbn in Hnone. subst faces.
  reflexivity.
Qed.

(** ** numpy's argmax picks the first maximum *)

Lemma first_max_snoc_le (pre : list R) best x :
  first_max pre best -> (x <= nth best pre 0)%R ->
  first_max (pre ++ [x]) best.
Proof.
  intros [Hb [Hle Hlt]] Hx.
  assert (Hnb : nth best (pre ++ [x]) 0%R = nth best pre 0%R) by (apply app_nth1; lia).
  repeat split.
  - rewrite length_app; cbn; lia.
  - intros j Hj. rewrite length_app in Hj; cbn in Hj. rewrite Hnb.
    destruct (Nat.lt_ge_cases j (length pre)) as [Hj' | Hj'].
    + rewrite app_nth1 by lia. apply Hle, Hj'.
    + rewrite app_nth2 by lia. replace (j - length pre)%nat with 0%nat by lia. exact Hx.
  - intros j Hj. rewrite Hnb, app_nth1 by lia. apply Hlt, Hj.
Qed.

Lemma first_max_snoc_gt (pre : list R) best x :
  first_max pre best -> (nth best pre 0 < x)%R ->
  first_max (pre ++ [x]) (length pre).
Proof.
  intros [Hb [Hle Hlt]] Hx.
  assert (Hnx : nth (length pre) (pre ++ [x]) 0%R = x).
  { rewrite app_nth2 by lia. rewrite Nat.sub_diag. reflexivity. }
  repeat split.
  - rewrite length_app; cbn; lia.
  - intros j Hj. rewrite length_app in Hj; cbn in Hj. rewrite Hnx.
    destruct (Nat.lt_ge_cases j (length pre)) as [Hj' | Hj'].
    + rewrite app_nth1 by lia. specialize (Hle j Hj'). lra.
    + rewrite app_nth2 by lia. replace (j - length pre)%nat with 0%nat by lia.
      apply Rle_refl.
  - intros j Hj. rewrite Hnx, app_nth1 by lia. specialize (Hle j Hj). lra.
Qed.

Lemma argmax_from_first_max (l pre : list R) (best : nat) (mp : R) :
  first_max pre best -> nth best pre 0%R = mp ->
  first_max (pre ++ l) (argmax_from l (length pre) best mp).
Proof.
  revert pre best mp. induction l as [|x l IH]; intros pre best mp Hfm Hmp; cbn.
  - rewrite app_nil_r. exact Hfm.
  - replace (pre ++ x :: l) with ((pre ++ [x]) ++ l)
      by (rewrite <- app_assoc; reflexivity).
    replace (S (length pre)) with (length (pre ++ [x]))
      by (rewrite length_app; cbn; lia).
    destruct (Rle_dec x mp) as [Hle | Hgt].
    + apply (IH (pre ++ [x]) best mp).
      * apply first_max_snoc_le; [exact Hfm | rewrite Hmp; exact Hle].
      * rewrite app_nth1 by (destruct Hfm; lia). exact Hmp.
    + apply (IH (pre ++ [x]) (length pre) x).
      * apply (first_max_snoc_gt pre best x); [exact Hfm | rewrite Hmp; lra].
      * rewrite app_nth2 by lia. rewrite Nat.sub_diag. reflexivity.
Qed.

Lemma np_argmax_first_max (l : list R) (i : nat) :
  np_argmax l = Ok i -> first_max l i.
Proof.
  destruct l as [|x l]; cbn; intro H; [discriminate|].
  injection H as <-.
  apply (argmax_from_first_max l [x] 0 x); [|reflexivity].
  repeat split; cbn.
  - lia.
  - intros j Hj. replace j with 0%nat by lia. apply Rle_refl.
  - intros j Hj. lia.
Qed.

Lemma first_max_unique (l : list R) (i j : nat) :
  first_max l i -> first_max l j -> i = j.
Proof.
  intros [Hi [Hlei Hlti]] [Hj [Hlej Hltj]].
  destruct (Nat.lt_trichotomy i j) as [H | [H | H]]; [|exact H|].
  - specialize (Hltj i H). specialize (Hlei j Hj). lra.
  - specialize (Hlti j H). specialize (Hlej i Hi). lra.
Qed.

Lemma np_argmax_of_first_max (l : list R) (i : nat) :
  first_max l i -> np_argmax l = Ok i.
Proof.
  intro Hfm. destruct l as [|x l'] eqn:El.
  - destruct Hfm as [Hi _]. cbn in Hi. lia.
  - rewrite <- El in *.
    assert (Hk : np_argmax l = Ok (argmax_from l' 1 0 x)) by (subst l; reflexivity).
    rewrite Hk. f_equal. symmetry.
    apply (first_max_unique l); [exact Hfm|].
    apply np_argmax_first_max, Hk.
Qed.

(** ** Softmax *)

Lemma list_sum_map_div (l : list R) (d : R) :
  list_sum (map (fun v => (v / d)%R) l) = (list_sum l / d)%R.
Proof.
  unfold list_sum.
  induction l as [|x l IH]; cbn [map fold_right]; [unfold Rdiv; ring|].
  rewrite IH. unfold Rdiv. ring.
Qed.

Lemma list_sum_pos (l : list R) :
  Forall (fun v => 0 < v)%R l -> l <> [] -> (0 < list_sum l)%R.
Proof.
  induction l as [|x l IH]; intros Hall Hne; [contradiction|].
  inversion Hall as [|? ? Hx Hl]; subst.
  change (list_sum (x :: l)) with (x + list_sum l)%R.
  destruct l as [|y l'].
  - unfold list_sum; cbn [fold_right]. lra.
  - assert (0 < list_sum (y :: l'))%R by (apply IH; [exact Hl | discriminate]). lra.
Qed.

Lemma list_sum_nonneg (l : list R) :
  Forall (fun v => 0 <= v)%R l -> (0 <= list_sum l)%R.
Proof.
  unfold list_sum.
  induction l as [|x l IH]; intro Hall; cbn [fold_right]; [lra|].
  inversion Hall as [|? ? Hx Hl]; subst. specialize (IH Hl). lra.
Qed.

Lemma softmax_den_pos (x : R) (l : list R) : (0 < softmax_den x l)%R.
Proof.
  unfold softmax_den. apply list_sum_pos; [|discriminate].
  apply Forall_forall. intros v Hv. apply in_map_iff in Hv.
  destruct Hv as [w [<- _]]. apply exp_pos.
Qed.

Lemma softmax_cons (x : R) (l : list R) :
  softmax (x :: l) =
  map (fun v => exp (v - list_max x (x :: l)) / softmax_den x l)%R (x :: l).
Proof.
  unfold softmax, softmax_den. rewrite map_map. reflexivity.
Qed.

Lemma length_softmax (l : list R) : length (softmax l) = length l.
Proof. destruct l as [|x l]; [reflexivity|]. rewrite softmax_cons. apply length_map. Qed.

Lemma softmax_sum (l : list R) : l <> [] -> list_sum (softmax l) = 1%R.
Proof.
  destruct l as [|x l]; intro H; [contradiction|].
  unfold softmax. rewrite list_sum_map_div.
  pose proof (softmax_den_pos x l) as Hp. unfold softmax_den in Hp.
  field. lra.
Qed.

Lemma softmax_nonneg (l : list R) : Forall (fun v => 0 <= v)%R (softmax l).
Proof.
  destruct l as [|x l]; [constructor|]. rewrite softmax_cons.
  apply Forall_forall. intros v Hv. apply in_map_iff in Hv.
  destruct Hv as [w [<- _]].
  pose proof (softmax_den_pos x l). pose proof (exp_pos (w - list_max x (x :: l))).
  apply Rlt_le, Rdiv_lt_0_compat; assumption.
Qed.

Lemma nth_softmax (x : R) (l : list R) (j : nat) :
  (j < S (length l))%nat ->
  nth j (softmax (x :: l)) 0%R =
  (exp (nth j (x :: l) 0 - list_max x (x :: l)) / softmax_den x l)%R.
Proof.
  intro Hj. rewrite softmax_cons.
  rewrite (nth_indep _ 0%R (exp (0 - list_max x (x :: l)) / softmax_den x l)%R)
    by (rewrite length_map; exact Hj).
  apply (map_nth (fun v => exp (v - list_max x (x :: l)) / softmax_den x l)%R).
Qed.

(** Softmax is increasing, so it keeps the first maximum. *)
Lemma softmax_first_max (l : list R) (i : nat) :
  first_max l i -> first_max (softmax l) i.
Proof.
  destruct l as [|x l]; intros [Hi [Hle Hlt]]; [cbn in Hi; lia|].
  pose proof (softmax_den_pos x l) as Hd.
  cbn [length] in *. unfold first_max. rewrite length_softmax. cbn [length].
  repeat split; [exact Hi| |].
  - intros j Hj. rewrite !nth_softmax by lia.
    apply Rmult_le_compat_r; [apply Rlt_le, Rinv_0_lt_compat, Hd|].
    destruct (Rle_lt_or_eq_dec _ _ (Hle j Hj)) as [H | H].
    + apply Rlt_le, exp_increasing. lra.
    + rewrite H. apply Rle_refl.
  - intros j Hj. rewrite !nth_softmax by lia.
    apply Rmult_lt_compat_r; [apply Rinv_0_lt_compat, Hd|].
    apply exp_increasing. specialize (Hlt j Hj). lra.
Qed.

(** ** The probability dict and the label selection *)

Lemma prob_dict_cases (p : list R) :
  prob_dict p =
  match p with
  | p0 :: p1 :: p2 :: p3 :: p4 :: p5 :: p6 :: _ =>
      Ok [("angry", p0); ("disgust", p1); ("fear", p2); ("happy", p3);
          ("neutral", p4); ("sad", p5); ("surprise", p6)]
  | _ => Raise IndexError
  end.
Proof.
  destruct p as [|p0 [|p1 [|p2 [|p3 [|p4 [|p5 [|p6 p]]]]]]]; reflexivity.
Qed.

Lemma NoDup_EMOTIONS : NoDup EMOTIONS.
Proof.
  unfold EMOTIONS.
  repeat (constructor; [cbn; intuition discriminate|]). constructor.
Qed.

(** What the selection lines of [_classify_emotion] and
    [detect_emotion_from_audio] compute, once all of them succeed. *)
Lemma selection_spec (probs : list R) idx e c d :
  np_argmax probs = Ok idx ->
  py_index EMOTIONS idx = Ok e ->
  py_index probs idx = Ok c ->
  prob_dict probs = Ok d ->
  first_max probs idx /\ nth_error EMOTIONS idx = Some e /\
  c = nth idx probs 0%R /\ dict_get d e = Some c /\
  (forall k v, In (k, v) d -> (v <= c)%R) /\
  map fst d = EMOTIONS /\ map snd d = firstn 7 probs.
Proof.
  intros Harg He Hc Hd.
  pose proof (np_argmax_first_max _ _ Harg) as Hfm.
  unfold py_index in He, Hc.
  destruct (nth_error EMOTIONS idx) as [e'|] eqn:Ee; [|discriminate].
  injection He as <-.
  destruct (nth_error probs idx) as [c'|] eqn:Ec; [|discriminate].
  injection Hc as <-.
  assert (Hcn : c' = nth idx probs 0%R)
    by (symmetry; apply nth_error_nth, Ec).
  rewrite prob_dict_cases in Hd.
  destruct probs as [|p0 [|p1 [|p2 [|p3 [|p4 [|p5 [|p6 rest]]]]]]];
    try discriminate.
  injection Hd as <-.
  assert (Hmax : forall k v,
    In (k, v) [("angry", p0); ("disgust", p1); ("fear", p2); ("happy", p3);
               ("neutral", p4); ("sad", p5); ("surprise", p6)] -> (v <= c')%R).
  { intros k v Hin. destruct Hfm as [Hi [Hle _]].
    rewrite Hcn.
    cbn [In] in Hin.
    repeat (destruct Hin as [Hkv | Hin]; [injection Hkv as <- <-|]);
      [ apply (Hle 0%nat) | apply (Hle 1%nat) | apply (Hle 2%nat)
      | apply (Hle 3%nat) | apply (Hle 4%nat) | apply (Hle 5%nat)
      | apply (Hle 6%nat) | contradiction ]; cbn; lia. }
  repeat split; try assumption; try reflexivity.
  - apply Hfm.
  - apply Hfm.
  - apply Hfm.
  - destruct idx as [|[|[|[|[|[|[|idx]]]]]]]; cbn in Ee;
      [..|destruct idx; discriminate];
      injection Ee as <-; cbn in Ec |- *; injection Ec as <-; reflexivity.
Qed.

Lemma selection_ok (probs : list R) :
  length probs = 7%nat ->
  exists idx e c d, np_argmax probs = Ok idx /\ py_index EMOTIONS idx = Ok e /\
    py_index probs idx = Ok c /\ prob_dict probs = Ok d.
Proof.
  intro Hlen.
  destruct probs as [|p0 [|p1 [|p2 [|p3 [|p4 [|p5 [|p6 [|p7 rest]]]]]]]];
    try discriminate.
  set (l := [p0; p1; p2; p3; p4; p5; p6]).
  assert (Ha : exists k, np_argmax l = Ok k) by (eexists; reflexivity).
  destruct Ha as [k Hk].
  pose proof (np_argmax_first_max _ _ Hk) as [Hkl _]. cbn in Hkl.
  unfold py_index.
  destruct (nth_error EMOTIONS k) as [e|] eqn:Ee;
    [|apply nth_error_None in Ee; cbn in Ee; lia].
  destruct (nth_error l k) as [c|] eqn:Ec;
    [|apply nth_error_None in Ec; cbn in Ec; lia].
  exists k, e, c. eexists. split; [exact Hk|].
  unfold py_index. rewrite Ee, Ec. repeat split; reflexivity.
Qed.

Lemma first_max_firstn (l : list R) (i n : nat) :
  first_max l i -> (i < n)%nat -> first_max (firstn n l) i.
Proof.
  intros [Hi [Hle Hlt]] Hin. unfold first_max. rewrite length_firstn.
  repeat split.
  - lia.
  - intros j Hj. rewrite !nth_firstn.
    replace (j <? n)%nat with true by (symmetry; apply Nat.ltb_lt; lia).
    replace (i <? n)%nat with true by (symmetry; apply Nat.ltb_lt; lia).
    apply Hle. lia.
  - intros j Hj. rewrite !nth_firstn.
    replace (j <? n)%nat with true by (symmetry; apply Nat.ltb_lt; lia).
    replace (i <? n)%nat with true by (symmetry; apply Nat.ltb_lt; lia).
    apply Hlt, Hj.
Qed.

Lemma prob_dict_distribution (p : list R) d :
  length p = 7%nat -> prob_dict p = Ok d ->
  Forall (fun v => 0 <= v)%R p -> list_sum p = 1%R -> label_distribution d.
Proof.
  intros Hlen Hd Hnn Hsum.
  rewrite prob_dict_cases in Hd.
  destruct p as [|p0 [|p1 [|p2 [|p3 [|p4 [|p5 [|p6 [|p7 rest]]]]]]]];
    try discriminate.
  injection Hd as <-. repeat split.
  - exact NoDup_EMOTIONS.
  - exact Hnn.
  - exact Hsum.
Qed.

Lemma classify_emotion_inv (B : EmotionBackend) t ec :
  classify_emotion B t = Ok ec ->
  let probs := softmax (emotion_cnn_logits B t) in
  exists idx, np_argmax probs = Ok idx /\
    py_index EMOTIONS idx = Ok (ec_emotion ec) /\
    py_index probs idx = Ok (ec_confidence ec) /\
    prob_dict probs = Ok (ec_probabilities ec).
Proof.
  unfold classify_emotion. cbv zeta.
  destruct (np_argmax _) as [idx|] eqn:E1; cbn; [|discriminate].
  destruct (py_index EMOTIONS idx) as [e|] eqn:E2; cbn; [|discriminate].
  destruct (py_index (softmax _) idx) as [c|] eqn:E3; cbn; [|discriminate].
  destruct (prob_dict _) as [d|] eqn:E4; cbn; [|discriminate].
  intro H. injection H as <-. cbn. eauto.
Qed.

Lemma detect_emotion_from_audio_inv (A : AudioBackend) a v :
  detect_emotion_from_audio A a = Ok v ->
  exists y idx, decode_base64_audio A a = Ok y /\
    let probs := softmax (audio_cnn_logits A (create_spectrogram A y)) in
    np_argmax probs = Ok idx /\
    py_index EMOTIONS idx = Ok (ar_emotion v) /\
    py_index probs idx = Ok (ar_confidence v) /\
    prob_dict probs = Ok (ar_probabilities v) /\
    ar_audio_features v = extract_audio_features A y.
Proof.
  unfold detect_emotion_from_audio.
  destruct (decode_base64_audio A a) as [y|] eqn:E0; cbn; [|discriminate].
  destruct (np_argmax _) as [idx|] eqn:E1; cbn; [|discriminate].
  destruct (py_index EMOTIONS idx) as [e|] eqn:E2; cbn; [|discriminate].
  destruct (py_index (softmax _) idx) as [c|] eqn:E3; cbn; [|discriminate].
  destruct (prob_dict _) as [d|] eqn:E4; cbn; [|discriminate].
  intro H. injection H as <-. exists y, idx. cbv zeta. cbn.
  repeat split; first [assumption | reflexivity].
Qed.

(** The distribution, label and confidence of one classifier head. *)
Lemma head_distribution (logits : list R) :
  length logits = 7%nat ->
  exists idx e c d,
    np_argmax (softmax logits) = Ok idx /\ py_index EMOTIONS idx = Ok e /\
    py_index (softmax logits) idx = Ok c /\ prob_dict (softmax logits) = Ok d /\
    label_distribution d.
Proof.
  intro Hlen.
  assert (Hl : length (softmax logits) = 7%nat) by (rewrite length_softmax; exact Hlen).
  destruct (selection_ok _ Hl) as [idx [e [c [d [H1 [H2 [H3 H4]]]]]]].
  exists idx, e, c, d.
  split; [exact H1|]. split; [exact H2|]. split; [exact H3|]. split; [exact H4|].
  apply (prob_dict_distribution (softmax logits)); try assumption.
  - apply softmax_nonneg.
  - apply softmax_sum. intro H; subst; discriminate.
Qed.

Lemma head_selection (probs : list R) e c d :
  (exists idx, np_argmax probs = Ok idx /\ py_index EMOTIONS idx = Ok e /\
     py_index probs idx = Ok c /\ prob_dict probs = Ok d) ->
  map fst d = EMOTIONS /\
  (exists i, first_max (map snd d) i /\ nth_error EMOTIONS i = Some e) /\
  dict_get d e = Some c /\ (forall k v, In (k, v) d -> (v <= c)%R).
Proof.
  intros [idx [H1 [H2 [H3 H4]]]].
  destruct (selection_spec _ _ _ _ _ H1 H2 H3 H4)
    as [Hfm [He [Hc [Hget [Hmax [Hfst Hsnd]]]]]].
  split; [exact Hfst|]. split; [|split; assumption].
  exists idx. split; [|exact He].
  rewrite Hsnd. apply first_max_firstn; [exact Hfm|].
  assert (Hlt : nth_error EMOTIONS idx <> None) by (rewrite He; discriminate).
  apply nth_error_Some in Hlt. exact Hlt.
Qed.

(** ** C7: classifier outputs are distributions over the label set *)

(** C7.  For an input tensor of the expected shape (the network head then
    yields one logit per class, 7), the probability dict built by
    [_classify_emotion] and by [detect_emotion_from_audio] has exactly one
    entry per label of the fixed set, in its order, every value is
    non-negative, and the values sum to 1 (in exact arithmetic; so within
    1e-6). *)
Theorem classifier_output_is_distribution (B : EmotionBackend) (t : FaceTensor)
    (A : AudioBackend) (audio_data : string) (audio : list R) :
  length (emotion_cnn_logits B t) = 7%nat ->
  decode_base64_audio A audio_data = Ok audio ->
  length (audio_cnn_logits A (create_spectrogram A audio)) = 7%nat ->
  (exists ec, classify_emotion B t = Ok ec /\
     label_distribution (ec_probabilities ec) /\
     (Rabs (list_sum (map snd (ec_probabilities ec)) - 1) <= 1/1000000)%R) /\
  (exists v, detect_emotion_from_audio A audio_data = Ok v /\
     label_distribution (ar_probabilities v) /\
     (Rabs (list_sum (map snd (ar_probabilities v)) - 1) <= 1/1000000)%R).
Proof.
  intros Hv Hdec Ha. split.
  - destruct (head_distribution _ Hv) as [idx [e [c [d [H1 [H2 [H3 [H4 Hd]]]]]]]].
    unfold classify_emotion. cbv zeta.
    rewrite H1; cbn [bind]. rewrite H2; cbn [bind].
    rewrite H3; cbn [bind]. rewrite H4; cbn [bind].
    eexists. split; [reflexivity|]. cbn [ec_probabilities].
    split; [exact Hd|].
    destruct Hd as [_ [_ [_ Hsum]]]. rewrite Hsum, Rminus_diag, Rabs_R0. lra.
  - destruct (head_distribution _ Ha) as [idx [e [c [d [H1 [H2 [H3 [H4 Hd]]]]]]]].
    unfold detect_emotion_from_audio. rewrite Hdec; cbn [bind]. cbv zeta.
    rewrite H1; cbn [bind]. rewrite H2; cbn [bind].
    rewrite H3; cbn [bind]. rewrite H4; cbn [bind].
    eexists. split; [reflexivity|]. cbn [ar_probabilities].
    split; [exact Hd|].
    destruct Hd as [_ [_ [_ Hsum]]]. rewrite Hsum, Rminus_diag, Rabs_R0. lra.
Qed.

(** ** C8: arg-max with first-occurrence tie-breaking *)

(** C8.  The label returned by [_classify_emotion] and by
    [detect_emotion_from_audio] sits at the first index, in the fixed
    label order, whose probability is maximal: every probability is at most
    the chosen one, and every label before it has a strictly smaller one. *)
Theorem predicted_label_is_first_argmax (B : EmotionBackend) (t : FaceTensor)
    (ec : EmotionClassification) (A : AudioBackend) (audio_data : string)
    (v : AudioEmotionResult) :
  classify_emotion B t = Ok ec ->
  detect_emotion_from_audio A audio_data = Ok v ->
  (map fst (ec_probabilities ec) = EMOTIONS /\
   exists i, first_max (map snd (ec_probabilities ec)) i /\
             nth_error EMOTIONS i = Some (ec_emotion ec)) /\
  (map fst (ar_probabilities v) = EMOTIONS /\
   exists i, first_max (map snd (ar_probabilities v)) i /\
             nth_error EMOTIONS i = Some (ar_emotion v)).
Proof.
  intros Hc Ha. split.
  - destruct (head_selection _ _ _ _ (classify_emotion_inv _ _ _ Hc))
      as [Hfst [Hi _]]. split; assumption.
  - destruct (detect_emotion_from_audio_inv _ _ _ Ha) as [y [idx [_ H]]].
    cbv zeta in H. destruct H as [H1 [H2 [H3 [H4 _]]]].
    destruct (head_selection _ _ _ _ (ex_intro _ idx (conj H1 (conj H2 (conj H3 H4)))))
      as [Hfst [Hi _]]. split; assumption.
Qed.

(** ** C10: confidence is the probability of the returned label *)

(** C10.  On both classifier paths ([_classify_emotion] and
    [detect_emotion_from_audio]) the returned confidence is the value the
    returned dict gives to the returned label, and no value of the dict is
    larger. *)
Theorem confidence_is_max_probability (B : EmotionBackend) (t : FaceTensor)
    (ec : EmotionClassification) (A : AudioBackend) (audio_data : string)
    (v : AudioEmotionResult) :
  classify_emotion B t = Ok ec ->
  detect_emotion_from_audio A audio_data = Ok v ->
  (dict_get (ec_probabilities ec) (ec_emotion ec) = Some (ec_confidence ec) /\
   forall k p, In (k, p) (ec_probabilities ec) -> (p <= ec_confidence ec)%R) /\
  (dict_get (ar_probabilities v) (ar_emotion v) = Some (ar_confidence v) /\
   forall k p, In (k, p) (ar_probabilities v) -> (p <= ar_confidence v)%R).
Proof.
  intros Hc Ha. split.
  - destruct (head_selection _ _ _ _ (classify_emotion_inv _ _ _ Hc))
      as [_ [_ [Hget Hmax]]]. split; assumption.
  - destruct (detect_emotion_from_audio_inv _ _ _ Ha) as [y [idx [_ H]]].
    cbv zeta in H. destruct H as [H1 [H2 [H3 [H4 _]]]].
    destruct (head_selection _ _ _ _ (ex_intro _ idx (conj H1 (conj H2 (conj H3 H4)))))
      as [_ [_ [Hget Hmax]]]. split; assumption.
Qed.

(** ** Evaluation on the concrete backends *)

Lemma happy_logits_first_max : first_max Demo.happy_logits 3.
Proof.
  unfold Demo.happy_logits. repeat split; cbn [length].
  - lia.
  - intros j Hj.
    destruct j as [|[|[|[|[|[|[|j]]]]]]]; cbn [nth]; try lra. lia.
  - intros j Hj.
    destruct j as [|[|[|j]]]; cbn [nth]; try lra. lia.
Qed.

Lemma happy_argmax : np_argmax Demo.happy_probs = Ok 3%nat.
Proof.
  apply np_argmax_of_first_max, softmax_first_max, happy_logits_first_max.
Qed.

Lemma classify_emotion_happy (B : EmotionBackend) t :
  emotion_cnn_logits B t = Demo.happy_logits ->
  classify_emotion B t = Ok Demo.happy_classification.
Proof.
  intro H. unfold classify_emotion. rewrite H.
  change (softmax Demo.happy_logits) with Demo.happy_probs.
  rewrite happy_argmax. reflexivity.
Qed.

Lemma detect_emotion_from_audio_happy (A : AudioBackend) a y :
  decode_base64_audio A a = Ok y ->
  audio_cnn_logits A (create_spectrogram A y) = Demo.happy_logits ->
  detect_emotion_from_audio A a =
    Ok {| ar_emotion := "happy"; ar_confidence := nth 3 Demo.happy_probs 0%R;
          ar_audio_features := extract_audio_features A y;
          ar_probabilities := Demo.happy_dict |}.
Proof.
  intros Hdec H. unfold detect_emotion_from_audio. rewrite Hdec. cbn [bind].
  rewrite H. change (softmax Demo.happy_logits) with Demo.happy_probs.
  rewrite happy_argmax. reflexivity.
Qed.

(** [detect_emotion] once a face is found. *)
Lemma detect_emotion_face_found (B : EmotionBackend) s img a sid image s' l ft ec :
  img <> "" ->
  decode_base64_image B img = Ok image ->
  extract_facial_landmarks B s image = (s', Some l) ->
  preprocess_face_for_emotion B image l = Ok ft ->
  classify_emotion B ft = Ok ec ->
  detect_emotion B s (Some img) a sid =
    (s', Ok {| emotion := ec_emotion ec; confidence := ec_confidence ec;
               source := "video"; facial_landmarks := Some (landmarks l);
               audio_features := None |}).
Proof.
  intros Hne Hdec Hext Hpre Hcls. unfold detect_emotion.
  destruct (String.eqb_spec img "") as [Heq | _]; [contradiction|].
  rewrite Hdec, Hext. cbn [bind]. rewrite Hpre. cbn [bind]. rewrite Hcls.
  reflexivity.
Qed.

(** [detect_multimodal_emotion] when no face is found. *)
Lemma detect_multimodal_no_face (B : EmotionBackend) s g img aud sid image :
  decode_base64_image B img = Ok image ->
  snd (face_mesh_process B s image) = [] ->
  snd (detect_multimodal_emotion B s g img aud sid) = Ok (no_face_response "audio").
Proof.
  intros Hdec Hnone. unfold detect_multimodal_emotion. rewrite Hdec.
  unfold extract_facial_landmarks.
  destruct (face_mesh_process B s image) as [s' faces]. cbn in Hnone. subst faces.
  reflexivity.
Qed.

(** ** Energy of a clip *)

Lemma list_sum_pos_in (l : list R) (a : R) :
  Forall (fun v => 0 <= v)%R l -> In a l -> (0 < a)%R -> (0 < list_sum l)%R.
Proof.
  unfold list_sum.
  induction l as [|x l IH]; intros Hall Hin Ha; [destruct Hin|].
  inversion Hall as [|? ? Hx Hl]; subst. cbn [fold_right].
  destruct Hin as [<- | Hin].
  - pose proof (list_sum_nonneg l Hl) as H. unfold list_sum in H. lra.
  - specialize (IH Hl Hin Ha). lra.
Qed.

Lemma rms_frame_nonneg (frame : list R) : (0 <= rms_frame frame)%R.
Proof. unfold rms_frame. apply R_sqrt.sqrt_pos. Qed.

Lemma rms_frame_pos (frame : list R) (p : nat) :
  (p < length frame)%nat -> nth p frame 0%R <> 0%R -> (0 < rms_frame frame)%R.
Proof.
  intros Hp Hne. unfold rms_frame. apply R_sqrt.sqrt_lt_R0.
  apply Rdiv_lt_0_compat; [|unfold frame_length; apply lt_0_INR; lia].
  apply (list_sum_pos_in _ (nth p frame 0%R * nth p frame 0%R)).
  - apply Forall_forall. intros v Hv. apply in_map_iff in Hv.
    destruct Hv as [x [<- _]]. nra.
  - apply (in_map (fun v => (v * v)%R)). apply nth_In. exact Hp.
  - assert (0 < nth p frame 0%R * nth p frame 0%R)%R
      by (apply Rsqr_pos_lt; exact Hne). exact H.
Qed.

(** The mean RMS of [librosa_rms y] is positive as soon as one sample of
    [y] is non-zero, whatever the length of [y]: the frame starting at
    [hop_length * (k / hop_length)] holds sample [k]. *)
Lemma mean_rms_pos (y : list R) (k : nat) :
  (k < length y)%nat -> nth k y 0%R <> 0%R -> (0 < np_mean (librosa_rms y))%R.
Proof.
  intros Hk Hne. unfold np_mean, librosa_rms.
  replace (frame_length / 2)%nat with 1024%nat by reflexivity.
  set (pad := repeat 0%R 1024).
  set (padded := (pad ++ y ++ pad)%list).
  assert (Hlen : length padded = (1024 + length y + 1024)%nat).
  { unfold padded, pad. rewrite !length_app, !repeat_length. lia. }
  set (q := (k / hop_length)%nat).
  assert (Hq : (hop_length * q <= k)%nat)
    by (unfold q; apply Nat.Div0.mul_div_le).
  assert (Hq2 : (k < hop_length * q + hop_length)%nat).
  { unfold q. pose proof (Nat.div_mod_eq k hop_length).
    pose proof (Nat.mod_upper_bound k hop_length ltac:(unfold hop_length; lia)).
    lia. }
  set (frame := firstn frame_length (skipn (hop_length * q) padded)).
  set (p := (1024 + k - hop_length * q)%nat).
  assert (Hp : (p < length frame)%nat).
  { unfold frame, p. rewrite length_firstn, length_skipn, Hlen.
    unfold frame_length, hop_length in *. lia. }
  assert (Hnth : nth p frame 0%R = nth k y 0%R).
  { unfold frame. rewrite nth_firstn.
    destruct (Nat.ltb_spec p frame_length) as [_ | Hge];
      [|exfalso; unfold p, frame_length, hop_length in *; lia].
    cbn [andb]. rewrite nth_skipn.
    replace (hop_length * q + p)%nat with (1024 + k)%nat
      by (unfold p, hop_length in *; lia).
    unfold padded. rewrite app_nth2; unfold pad; rewrite repeat_length; [|lia].
    rewrite app_nth1 by lia. f_equal. lia. }
  apply Rdiv_lt_0_compat; [|apply lt_0_INR; rewrite length_map, length_seq; lia].
  apply (list_sum_pos_in _ (rms_frame frame)).
  - apply Forall_forall. intros v Hv. apply in_map_iff in Hv.
    destruct Hv as [t [<- _]]. apply rms_frame_nonneg.
  - apply (in_map (fun t => rms_frame (firstn frame_length (skipn (hop_length * t) padded)))).
    apply in_seq. split; [lia|].
    rewrite Hlen. unfold q, frame_length, hop_length.
    replace (1024 + length y + 1024 - 2048)%nat with (length y) by lia.
    assert (k / 512 <= length y / 512)%nat by (apply Nat.Div0.div_le_mono; lia).
    lia.
  - apply (rms_frame_pos frame p Hp). rewrite Hnth. exact Hne.
Qed.

(** ** C5: clips shorter than one analysis frame *)

(** C5 (as the code has it).  [extract_audio_features] has no branch for
    short clips: it returns the frame means of the librosa features of the
    centre-padded clip.  Its energy, the mean RMS of the zero-padded frames,
    is positive for every clip, of any length (also shorter than one
    2048-sample frame), that has a non-zero sample; so the fields are not
    zero-filled. *)
Theorem extract_audio_features_energy_pos (A : AudioBackend) (y : list R) (k : nat) :
  (k < length y)%nat -> nth k y 0%R <> 0%R ->
  (0 < energy (extract_audio_features A y))%R.
Proof.
  intros Hk Hne. unfold extract_audio_features. cbn [energy].
  exact (mean_rms_pos y k Hk Hne).
Qed.

(** ** C2: multimodal request without a face *)

(** C2.  With an image in which no face is found, [detect_multimodal_emotion]
    does not run the audio pipeline: it returns the fixed answer
    [{neutral, 0.5, source="audio"}] although the audio classifier, run on
    the same audio, answers "happy". *)
Theorem multimodal_no_face_ignores_audio :
  snd (detect_multimodal_emotion Demo.no_face_backend None 0%N "aW1n" "UklGRg==" "s1")
    = Ok (no_face_response "audio") /\
  exists v, detect_emotion_from_audio Demo.audio_backend "UklGRg==" = Ok v /\
    ar_emotion v = "happy" /\ emotion (no_face_response "audio") = "neutral".
Proof.
  split.
  - apply (detect_multimodal_no_face _ _ _ _ _ _ Demo.image0); reflexivity.
  - exists Demo.happy_audio_result. split; [|split; reflexivity].
    apply (detect_emotion_from_audio_happy _ _ Demo.short_clip); reflexivity.
Qed.

(** ** C9: two invocations *)



(** ** Witnesses and counterexamples *)

Lemma detect_emotion_without_image_counterexample :
  detect_emotion Demo.no_face_backend None None (Some "UklGRiQAAABXQVZF") "s1" =
    (None, Raise (ValueError "Image data is required for emotion detection")).
Proof. reflexivity. Qed.

Lemma create_spectrogram_zero_std_counterexample :
  all_finite (create_spectrogram Demo.silent_audio_backend Demo.silent_clip) = false.
Proof. vm_compute. reflexivity. Qed.

Lemma create_spectrogram_zero_std_witness :
  (np_std2 (librosa_log_mel Demo.silent_audio_backend Demo.silent_clip) =? zero)%float = true /\
  is_rectangular (librosa_log_mel Demo.silent_audio_backend Demo.silent_clip) = true /\
  exists rows, create_spectrogram Demo.silent_audio_backend Demo.silent_clip = [[rows]] /\
    Forall (fun r =>
      (forall k, (k < Nat.min (n_cols (librosa_log_mel Demo.silent_audio_backend Demo.silent_clip)) 128)%nat ->
         is_finite (nth k r zero) = false) /\
      (forall k, (n_cols (librosa_log_mel Demo.silent_audio_backend Demo.silent_clip) <= k < 128)%nat ->
         nth k r zero = zero)) rows.
Proof.
  split; [vm_compute; reflexivity|]. split; [vm_compute; reflexivity|].
  apply create_spectrogram_zero_std; vm_compute; reflexivity.
Defined.

Lemma detect_emotion_no_face_witness :
  snd (detect_emotion Demo.no_face_backend None (Some "aW1n") None "s1") =
    Ok {| emotion := "neutral"; confidence := (1/2)%R; source := "video";
          facial_landmarks := None; audio_features := None |}.
Proof.
  apply (detect_emotion_no_face _ _ _ _ _ Demo.image0);
    [discriminate | reflexivity | reflexivity].
Defined.

Lemma extract_audio_features_energy_pos_counterexample :
  (length Demo.short_clip < frame_length)%nat /\
  energy (extract_audio_features Demo.audio_backend Demo.short_clip) <> 0%R.
Proof.
  assert (Hlen : length Demo.short_clip = 100%nat)
    by (unfold Demo.short_clip; apply repeat_length).
  split; [rewrite Hlen; unfold frame_length; lia|].
  apply Rgt_not_eq. unfold extract_audio_features. cbn [energy].
  apply (mean_rms_pos _ 0); [rewrite Hlen; lia | cbn; lra].
Qed.

Lemma extract_audio_features_energy_pos_witness :
  (0 < length Demo.short_clip)%nat /\ nth 0 Demo.short_clip 0%R <> 0%R /\
  (0 < energy (extract_audio_features Demo.audio_backend Demo.short_clip))%R.
Proof.
  assert (H1 : (0 < length Demo.short_clip)%nat)
    by (unfold Demo.short_clip; rewrite repeat_length; lia).
  assert (H2 : nth 0 Demo.short_clip 0%R <> 0%R) by (cbn; lra).
  split; [exact H1|]. split; [exact H2|].
  exact (extract_audio_features_energy_pos Demo.audio_backend Demo.short_clip 0 H1 H2).
Defined.

Lemma create_spectrogram_fixed_frames_witness :
  is_rectangular (librosa_log_mel Demo.audio_backend Demo.short_clip) = true /\
  exists rows, create_spectrogram Demo.audio_backend Demo.short_clip = [[rows]] /\
    length rows = length (librosa_log_mel Demo.audio_backend Demo.short_clip) /\
    Forall (fun r => length r = 128%nat) rows.
Proof.
  split; [reflexivity|].
  apply create_spectrogram_fixed_frames. reflexivity.
Defined.

Lemma classifier_output_is_distribution_witness :
  length (emotion_cnn_logits Demo.no_face_backend [[0%R]]) = 7%nat /\
  decode_base64_audio Demo.audio_backend "UklGRg==" = Ok Demo.short_clip /\
  length (audio_cnn_logits Demo.audio_backend
            (create_spectrogram Demo.audio_backend Demo.short_clip)) = 7%nat /\
  (exists ec, classify_emotion Demo.no_face_backend [[0%R]] = Ok ec /\
     label_distribution (ec_probabilities ec) /\
     (Rabs (list_sum (map snd (ec_probabilities ec)) - 1) <= 1/1000000)%R) /\
  (exists v, detect_emotion_from_audio Demo.audio_backend "UklGRg==" = Ok v /\
     label_distribution (ar_probabilities v) /\
     (Rabs (list_sum (map snd (ar_probabilities v)) - 1) <= 1/1000000)%R).
Proof.
  split; [reflexivity|]. split; [reflexivity|]. split; [reflexivity|].
  apply (classifier_output_is_distribution _ _ _ _ Demo.short_clip); reflexivity.
Defined.

Lemma predicted_label_is_first_argmax_witness :
  classify_emotion Demo.no_face_backend [[0%R]] = Ok Demo.happy_classification /\
  detect_emotion_from_audio Demo.audio_backend "UklGRg==" = Ok Demo.happy_audio_result /\
  (map fst (ec_probabilities Demo.happy_classification) = EMOTIONS /\
   exists i, first_max (map snd (ec_probabilities Demo.happy_classification)) i /\
             nth_error EMOTIONS i = Some (ec_emotion Demo.happy_classification)) /\
  (map fst (ar_probabilities Demo.happy_audio_result) = EMOTIONS /\
   exists i, first_max (map snd (ar_probabilities Demo.happy_audio_result)) i /\
             nth_error EMOTIONS i = Some (ar_emotion Demo.happy_audio_result)).
Proof.
  assert (Hc : classify_emotion Demo.no_face_backend [[0%R]] = Ok Demo.happy_classification)
    by (apply classify_emotion_happy; reflexivity).
  assert (Ha : detect_emotion_from_audio Demo.audio_backend "UklGRg==" = Ok Demo.happy_audio_result)
    by (apply (detect_emotion_from_audio_happy _ _ Demo.short_clip); reflexivity).
  split; [exact Hc|]. split; [exact Ha|].
  exact (predicted_label_is_first_argmax _ _ _ _ _ _ Hc Ha).
Defined.

Lemma confidence_is_max_probability_witness :
  classify_emotion Demo.no_face_backend [[0%R]] = Ok Demo.happy_classification /\
  detect_emotion_from_audio Demo.audio_backend "UklGRg==" = Ok Demo.happy_audio_result /\
  (dict_get (ec_probabilities Demo.happy_classification) (ec_emotion Demo.happy_classification)
     = Some (ec_confidence Demo.happy_classification) /\
   forall k p, In (k, p) (ec_probabilities Demo.happy_classification) ->
     (p <= ec_confidence Demo.happy_classification)%R) /\
  (dict_get (ar_probabilities Demo.happy_audio_result) (ar_emotion Demo.happy_audio_result)
     = Some (ar_confidence Demo.happy_audio_result) /\
   forall k p, In (k, p) (ar_probabilities Demo.happy_audio_result) ->
     (p <= ar_confidence Demo.happy_audio_result)%R).
Proof.
  assert (Hc : classify_emotion Demo.no_face_backend [[0%R]] = Ok Demo.happy_classification)
    by (apply classify_emotion_happy; reflexivity).
  assert (Ha : detect_emotion_from_audio Demo.audio_backend "UklGRg==" = Ok Demo.happy_audio_result)
    by (apply (detect_emotion_from_audio_happy _ _ Demo.short_clip); reflexivity).
  split; [exact Hc|]. split; [exact Ha|].
  exact (confidence_is_max_probability _ _ _ _ _ _ Hc Ha).
Defined.


(** ** Decoding of base64 payloads *)

Lemma list_ascii_of_string_append (a b : string) :
  list_ascii_of_string ((a ++ b)%string) = list_ascii_of_string a ++ list_ascii_of_string b.
Proof. induction a as [|x a IH]; cbn; [reflexivity | now rewrite IH]. Qed.

Lemma string_append_assoc (a b c : string) :
  ((a ++ b) ++ c)%string = (a ++ (b ++ c))%string.
Proof. induction a as [|x a IH]; cbn; [reflexivity | now rewrite IH]. Qed.

Lemma prefix_append (s t : string) : String.prefix s (s ++ t) = true.
Proof.
  induction s as [|x s IH]; [destruct t; reflexivity|].
  cbn. destruct (Ascii.ascii_dec x x); [exact IH | contradiction].
Qed.

Lemma py_split_no_sep (c : Ascii.ascii) (s : string) :
  ~ In c (list_ascii_of_string s) -> py_split c s = [s].
Proof.
  induction s as [|x s IH]; intro Hn; [reflexivity|].
  cbn in Hn |- *. rewrite IH by tauto.
  destruct (Ascii.eqb_spec x c) as [-> | _]; [tauto | reflexivity].
Qed.

Lemma py_split_first_sep (c : Ascii.ascii) (a b : string) :
  ~ In c (list_ascii_of_string a) -> py_split c ((a ++ String c b)%string) = a :: py_split c b.
Proof.
  induction a as [|x a IH]; intro Hn.
  - cbn. rewrite Ascii.eqb_refl. reflexivity.
  - cbn in Hn |- *. rewrite IH by tauto.
    destruct (Ascii.eqb_spec x c) as [-> | _]; [tauto | reflexivity].
Qed.

(** A data URL ["data:image" ++ mime ++ "," ++ payload] decodes as its
    payload alone, when neither [mime] nor the payload holds a comma and the
    payload is not itself a data URL. *)
Theorem decode_image_data_url (C : ImageCodec) (mime payload : string) :
  ~ In ","%char (list_ascii_of_string mime) ->
  ~ In ","%char (list_ascii_of_string payload) ->
  String.prefix "data:image" payload = false ->
  decode_base64_image_py C (Some ("data:image" ++ mime ++ "," ++ payload)%string) =
  decode_base64_image_py C (Some payload).
Proof.
  intros Hm Hp Hpre. unfold decode_base64_image_py. rewrite Hpre.
  rewrite prefix_append.
  replace ("data:image" ++ mime ++ "," ++ payload)%string
    with (("data:image" ++ mime) ++ String ","%char payload)%string
    by (rewrite string_append_assoc; reflexivity).
  rewrite py_split_first_sep, py_split_no_sep by
    (try rewrite list_ascii_of_string_append; cbn; intuition discriminate).
  reflexivity.
Qed.

(** The same for [_decode_base64_audio] and ["data:audio"] URLs. *)
Theorem decode_audio_data_url (C : AudioCodec) (mime payload : string) :
  ~ In ","%char (list_ascii_of_string mime) ->
  ~ In ","%char (list_ascii_of_string payload) ->
  String.prefix "data:audio" payload = false ->
  decode_base64_audio_py C ("data:audio" ++ mime ++ "," ++ payload)%string =
  decode_base64_audio_py C payload.
Proof.
  intros Hm Hp Hpre. unfold decode_base64_audio_py. rewrite Hpre.
  rewrite prefix_append.
  replace ("data:audio" ++ mime ++ "," ++ payload)%string
    with (("data:audio" ++ mime) ++ String ","%char payload)%string
    by (rewrite string_append_assoc; reflexivity).
  rewrite py_split_first_sep, py_split_no_sep by
    (try rewrite list_ascii_of_string_append; cbn; intuition discriminate).
  reflexivity.
Qed.

(** A ["data:image..."] string without a comma and a missing image are
    rejected with [ValueError("Invalid image data")] before any base64
    decoding (for audio, a ["data:audio..."] string without a comma). *)
Theorem decode_malformed_data_url (CI : ImageCodec) (CA : AudioCodec) (rest : string) :
  ~ In ","%char (list_ascii_of_string rest) ->
  decode_base64_image_py CI (Some ("data:image" ++ rest)%string) = Raise (ValueError "Invalid image data") /\
  decode_base64_image_py CI None = Raise (ValueError "Invalid image data") /\
  decode_base64_audio_py CA ("data:audio" ++ rest)%string = Raise (ValueError "Invalid audio data").
Proof.
  intro Hr. split; [|split].
  - unfold decode_base64_image_py.
    rewrite prefix_append.
    rewrite py_split_no_sep by
      (rewrite list_ascii_of_string_append; cbn; intuition discriminate).
    reflexivity.
  - reflexivity.
  - unfold decode_base64_audio_py.
    rewrite prefix_append.
    rewrite py_split_no_sep by
      (rewrite list_ascii_of_string_append; cbn; intuition discriminate).
    reflexivity.
Qed.

(** ** Landmarks and the face crop *)

Lemma fold_left_Rmin_spec (l : list R) (x : R) :
  In (fold_left Rmin l x) (x :: l) /\
  forall v, In v (x :: l) -> (fold_left Rmin l x <= v)%R.
Proof.
  revert x. induction l as [|y l IH]; intro x; cbn [fold_left].
  - split; [left; reflexivity|]. intros v [<- | []]. lra.
  - destruct (IH (Rmin x y)) as [Hin Hle]. split.
    + destruct Hin as [Hm | Hin]; [|right; right; exact Hin].
      rewrite <- Hm. unfold Rmin. destruct (Rle_dec x y); [left | right; left]; reflexivity.
    + intros v Hv. specialize (Hle (Rmin x y) (or_introl eq_refl)) as Hm.
      destruct Hv as [<- | [<- | Hv]].
      * pose proof (Rmin_l x y). lra.
      * pose proof (Rmin_r x y). lra.
      * apply (proj2 (IH (Rmin x y))). right. exact Hv.
Qed.

Lemma fold_left_Rmax_spec (l : list R) (x : R) :
  In (fold_left Rmax l x) (x :: l) /\
  forall v, In v (x :: l) -> (v <= fold_left Rmax l x)%R.
Proof.
  revert x. induction l as [|y l IH]; intro x; cbn [fold_left].
  - split; [left; reflexivity|]. intros v [<- | []]. lra.
  - destruct (IH (Rmax x y)) as [Hin Hle]. split.
    + destruct Hin as [Hm | Hin]; [|right; right; exact Hin].
      rewrite <- Hm. unfold Rmax. destruct (Rle_dec x y); [right; left | left]; reflexivity.
    + intros v Hv. specialize (Hle (Rmax x y) (or_introl eq_refl)) as Hm.
      destruct Hv as [<- | [<- | Hv]].
      * pose proof (Rmax_l x y). lra.
      * pose proof (Rmax_r x y). lra.
      * apply (proj2 (IH (Rmax x y))). right. exact Hv.
Qed.

Lemma py_min_spec (l : list R) (m : R) :
  py_min l = Ok m -> In m l /\ forall v, In v l -> (m <= v)%R.
Proof.
  destruct l as [|x l]; cbn; intro H; [discriminate|]. injection H as <-.
  apply fold_left_Rmin_spec.
Qed.

Lemma py_max_spec (l : list R) (m : R) :
  py_max l = Ok m -> In m l /\ forall v, In v l -> (v <= m)%R.
Proof.
  destruct l as [|x l]; cbn; intro H; [discriminate|]. injection H as <-.
  apply fold_left_Rmax_spec.
Qed.

(** What [landmarks_of_face] builds: the scaled points, one visibility per
    point, and a box from the extreme coordinates. *)
Lemma landmarks_of_face_spec (image : Image) (face : list MeshPoint) (l : FacialLandmarks) :
  landmarks_of_face image face = Ok l ->
  let pts := map (fun p => [(mp_x p * INR (img_width image))%R;
                            (mp_y p * INR (img_height image))%R]) face in
  landmarks l = pts /\ length (visibility l) = length face /\
  py_min (map (fun p => nth 0 p 0%R) pts) = Ok (bb_x (bounding_box l)) /\
  py_min (map (fun p => nth 1 p 0%R) pts) = Ok (bb_y (bounding_box l)) /\
  py_max (map (fun p => nth 0 p 0%R) pts) =
    Ok (bb_x (bounding_box l) + bb_width (bounding_box l))%R /\
  py_max (map (fun p => nth 1 p 0%R) pts) =
    Ok (bb_y (bounding_box l) + bb_height (bounding_box l))%R.
Proof.
  intro E. unfold landmarks_of_face, bind in E. cbv zeta in E |- *.
  set (pts := map (fun p => [(mp_x p * INR (img_width image))%R;
                             (mp_y p * INR (img_height image))%R]) face) in *.
  destruct (py_min (map (fun p => nth 0 p 0%R) pts)) as [mnx|] eqn:H1;
    [|discriminate].
  destruct (py_min (map (fun p => nth 1 p 0%R) pts)) as [mny|] eqn:H2;
    [|discriminate].
  destruct (py_max (map (fun p => nth 0 p 0%R) pts)) as [mxx|] eqn:H3;
    [|discriminate].
  destruct (py_max (map (fun p => nth 1 p 0%R) pts)) as [mxy|] eqn:H4;
    [|discriminate].
  injection E as <-. cbn [landmarks visibility bounding_box bb_x bb_y bb_width bb_height].
  rewrite length_map. repeat split; try assumption.
  - f_equal. ring.
  - f_equal. ring.
Qed.

(** When [_extract_facial_landmarks] returns landmarks, they are the points
    of the first face the mesh reports, scaled to pixels, with one
    visibility score per point, and the bounding box encloses every one of
    them. *)
Theorem extract_facial_landmarks_bbox (B : EmotionBackend) (s : FMState) (image : Image)
    (s' : FMState) (l : FacialLandmarks) :
  extract_facial_landmarks B s image = (s', Some l) ->
  exists face rest,
    snd (face_mesh_process B s image) = face :: rest /\
    landmarks l = map (fun p => [(mp_x p * INR (img_width image))%R;
                                 (mp_y p * INR (img_height image))%R]) face /\
    length (visibility l) = length face /\
    forall p, In p (landmarks l) ->
      (bb_x (bounding_box l) <= nth 0 p 0 <= bb_x (bounding_box l) + bb_width (bounding_box l))%R /\
      (bb_y (bounding_box l) <= nth 1 p 0 <= bb_y (bounding_box l) + bb_height (bounding_box l))%R.
Proof.
  unfold extract_facial_landmarks.
  destruct (face_mesh_process B s image) as [s0 faces]. cbn [snd].
  destruct faces as [|face rest]; [discriminate|].
  destruct (landmarks_of_face image face) as [l0|e] eqn:E; [|discriminate].
  intro H. injection H as <- <-.
  destruct (landmarks_of_face_spec _ _ _ E) as [Hl [Hv [H1 [H2 [H3 H4]]]]].
  exists face, rest. split; [reflexivity|]. split; [exact Hl|]. split; [exact Hv|].
  intros p Hp.
  apply py_min_spec in H1, H2. apply py_max_spec in H3, H4.
  assert (Hx : In (nth 0 p 0%R) (map (fun p => nth 0 p 0%R) (landmarks l0)))
    by (apply (in_map (fun p => nth 0 p 0%R)); exact Hp).
  assert (Hy : In (nth 1 p 0%R) (map (fun p => nth 1 p 0%R) (landmarks l0)))
    by (apply (in_map (fun p => nth 1 p 0%R)); exact Hp).
  rewrite Hl in Hx, Hy.
  split; split.
  - apply (proj2 H1). exact Hx.
  - apply (proj2 H3). exact Hx.
  - apply (proj2 H2). exact Hy.
  - apply (proj2 H4). exact Hy.
Qed.

Lemma py_int_nonneg (r : R) :
  (0 <= r)%R -> (0 <= py_int r)%Z /\ (IZR (py_int r) <= r)%R.
Proof.
  intro H. unfold py_int. destruct (Rle_dec 0 r) as [_|]; [|lra].
  destruct (base_Int_part r) as [H1 H2]. split; [|exact H1].
  assert (IZR (-1) < IZR (Int_part r))%R by lra.
  apply lt_IZR in H0. lia.
Qed.

Lemma extract_facial_landmarks_some (B : EmotionBackend) s image s' l :
  extract_facial_landmarks B s image = (s', Some l) ->
  exists face rest, snd (face_mesh_process B s image) = face :: rest /\
    landmarks_of_face image face = Ok l.
Proof.
  unfold extract_facial_landmarks.
  destruct (face_mesh_process B s image) as [s0 faces]. cbn [snd].
  destruct faces as [|face rest]; [discriminate|].
  destruct (landmarks_of_face image face) as [l0|e] eqn:E; [|discriminate].
  intro H. injection H as <- <-. exists face, rest. split; [reflexivity | exact E].
Qed.

(** The crop that [_preprocess_face_for_emotion] asks for starts inside the
    image and, however large the padded box, never reaches past its right
    or bottom edge. *)
Theorem preprocess_crop_inside_image (B : EmotionBackend) (image : Image)
    (l : FacialLandmarks) :
  exists x y w h,
    preprocess_face_for_emotion B image l = crop_resize_gray B image x y w h /\
    (0 <= x)%Z /\ (0 <= y)%Z /\
    (x + w <= Z.of_nat (img_width image))%Z /\ (y + h <= Z.of_nat (img_height image))%Z.
Proof.
  unfold preprocess_face_for_emotion. do 4 eexists. split; [reflexivity|]. lia.
Qed.

(** If the mesh reports points in MediaPipe's normalised range [[0, 1]] and
    the image is not empty, the crop of a detected face has positive width
    and height (at least one pixel) and lies inside the image. *)
Theorem face_crop_nonempty (B : EmotionBackend) (s : FMState) (image : Image)
    (s' : FMState) (l : FacialLandmarks) :
  (0 < img_width image)%nat -> (0 < img_height image)%nat ->
  Forall (Forall (fun q => 0 <= mp_x q <= 1 /\ 0 <= mp_y q <= 1)%R)
    (snd (face_mesh_process B s image)) ->
  extract_facial_landmarks B s image = (s', Some l) ->
  exists x y w h,
    preprocess_face_for_emotion B image l = crop_resize_gray B image x y w h /\
    (0 <= x)%Z /\ (0 <= y)%Z /\ (0 < w)%Z /\ (0 < h)%Z /\
    (x + w <= Z.of_nat (img_width image))%Z /\ (y + h <= Z.of_nat (img_height image))%Z.
Proof.
  intros HW HH Hnorm Hext.
  destruct (extract_facial_landmarks_some _ _ _ _ _ Hext) as [face [rest [Hf E]]].
  rewrite Hf in Hnorm. inversion Hnorm as [|? ? Hface _]; subst.
  destruct (landmarks_of_face_spec _ _ _ E) as [_ [_ [H1 [H2 [H3 H4]]]]].
  apply py_min_spec in H1, H2. apply py_max_spec in H3, H4.
  set (W := INR (img_width image)) in *. set (H := INR (img_height image)) in *.
  assert (HWpos : (0 < W)%R) by (apply lt_0_INR; exact HW).
  assert (HHpos : (0 < H)%R) by (apply lt_0_INR; exact HH).
  (* every coordinate lies in [0, W] resp. [0, H] *)
  assert (Hxs : forall v, In v (map (fun p => nth 0 p 0%R)
                  (map (fun p => [(mp_x p * W)%R; (mp_y p * H)%R]) face)) ->
                (0 <= v <= W)%R).
  { intros v Hv. rewrite map_map in Hv. apply in_map_iff in Hv.
    destruct Hv as [q [<- Hq]]. rewrite Forall_forall in Hface.
    destruct (Hface q Hq) as [Hqx _]. cbn [nth]. nra. }
  assert (Hys : forall v, In v (map (fun p => nth 1 p 0%R)
                  (map (fun p => [(mp_x p * W)%R; (mp_y p * H)%R]) face)) ->
                (0 <= v <= H)%R).
  { intros v Hv. rewrite map_map in Hv. apply in_map_iff in Hv.
    destruct Hv as [q [<- Hq]]. rewrite Forall_forall in Hface.
    destruct (Hface q Hq) as [_ Hqy]. cbn [nth]. nra. }
  set (bb := bounding_box l) in *.
  pose proof (Hxs _ (proj1 H1)) as Bx. pose proof (Hys _ (proj1 H2)) as By.
  pose proof (proj2 H1 _ (proj1 H3)) as Bw. pose proof (proj2 H2 _ (proj1 H4)) as Bh.
  destruct (py_int_nonneg (bb_x bb) ltac:(lra)) as [Ix1 Ix2].
  destruct (py_int_nonneg (bb_y bb) ltac:(lra)) as [Iy1 Iy2].
  destruct (py_int_nonneg (bb_width bb) ltac:(lra)) as [Iw1 _].
  destruct (py_int_nonneg (bb_height bb) ltac:(lra)) as [Ih1 _].
  assert (Ix3 : (py_int (bb_x bb) <= Z.of_nat (img_width image))%Z).
  { apply le_IZR. rewrite <- INR_IZR_INZ. fold W. lra. }
  assert (Iy3 : (py_int (bb_y bb) <= Z.of_nat (img_height image))%Z).
  { apply le_IZR. rewrite <- INR_IZR_INZ. fold H. lra. }
  unfold preprocess_face_for_emotion. fold bb.
  do 4 eexists. split; [reflexivity|]. lia.
Qed.

(** ** What a successful detection returns *)

Lemma argmax_selection (p : list R) idx e c :
  np_argmax p = Ok idx -> py_index EMOTIONS idx = Ok e -> py_index p idx = Ok c ->
  first_max p idx /\ nth_error EMOTIONS idx = Some e /\ c = nth idx p 0%R.
Proof.
  intros H1 H2 H3. split; [apply np_argmax_first_max, H1|].
  unfold py_index in H2, H3.
  destruct (nth_error EMOTIONS idx) eqn:E2; [|discriminate]. injection H2 as <-.
  destruct (nth_error p idx) eqn:E3; [|discriminate]. injection H3 as <-.
  split; [reflexivity|]. symmetry. apply nth_error_nth, E3.
Qed.

(** A successful [detect_emotion] is either the fixed no-face answer, or
    the verdict on the decoded image's first face: source ["video"], that
    face's landmarks, and the label at the first maximum of the CNN's
    softmax on the face crop, with that probability as its confidence. *)
Theorem detect_emotion_verdict (B : EmotionBackend) (s s' : FMState) (img : string)
    (audio_data : option string) (session_id : string) (r : EmotionDetectionResponse) :
  detect_emotion B s (Some img) audio_data session_id = (s', Ok r) ->
  r = no_face_response "video" \/
  exists image l ft,
    decode_base64_image B img = Ok image /\
    extract_facial_landmarks B s image = (s', Some l) /\
    preprocess_face_for_emotion B image l = Ok ft /\
    source r = "video" /\ facial_landmarks r = Some (landmarks l) /\
    audio_features r = None /\
    let p := softmax (emotion_cnn_logits B ft) in
    exists i, first_max p i /\ nth_error EMOTIONS i = Some (emotion r) /\
              confidence r = nth i p 0%R.
Proof.
  unfold detect_emotion.
  destruct (String.eqb img ""); [discriminate|].
  destruct (decode_base64_image B img) as [image|e] eqn:Hdec; [|discriminate].
  destruct (extract_facial_landmarks B s image) as [s1 [l|]] eqn:Hext.
  - destruct (preprocess_face_for_emotion B image l) as [ft|e] eqn:Hpre; cbn [bind];
      [|intro H; injection H as _ H; discriminate].
    destruct (classify_emotion B ft) as [ec|e] eqn:Hcls; cbn [bind];
      [|intro H; injection H as _ H; discriminate].
    intro H. injection H as <- <-. right.
    exists image, l, ft.
    do 3 (split; [first [reflexivity | assumption]|]). cbn [source facial_landmarks audio_features emotion confidence].
    split; [reflexivity|]. split; [reflexivity|]. split; [reflexivity|].
    destruct (classify_emotion_inv _ _ _ Hcls) as [idx [H1 [H2 [H3 _]]]].
    destruct (argmax_selection _ _ _ _ H1 H2 H3) as [Hf [He Hc]].
    exists idx. split; [exact Hf|]. split; [exact He | exact Hc].
  - intro H. injection H as <- <-. left. reflexivity.
Qed.

(** A successful [detect_multimodal_emotion] is either the fixed no-face
    answer, with torch's generator untouched, or the label at the first
    maximum of the fusion network's softmax on the two feature tensors of
    one [torch.randn] draw each: it is computed without reading
    [audio_data]. *)
Theorem detect_multimodal_verdict (B : EmotionBackend) (s s' : FMState) (g g' : RngState)
    (img aud session_id : string) (r : EmotionDetectionResponse) :
  detect_multimodal_emotion B s g img aud session_id = ((s', g'), Ok r) ->
  (r = no_face_response "audio" /\ g' = g) \/
  (source r = "multimodal" /\ audio_features r = None /\ facial_landmarks r <> None /\
   g' = fst (torch_randn B g) /\
   let p := softmax (fusion_logits B (fst (snd (torch_randn B g)))
                                     (snd (snd (torch_randn B g)))) in
   exists i, first_max p i /\ nth_error EMOTIONS i = Some (emotion r) /\
             confidence r = nth i p 0%R).
Proof.
  unfold detect_multimodal_emotion.
  destruct (decode_base64_image B img) as [image|e]; [|discriminate].
  destruct (extract_facial_landmarks B s image) as [s1 [l|]].
  - destruct (torch_randn B g) as [g1 [v a]]. cbn [fst snd].
    set (p := softmax (fusion_logits B v a)).
    destruct (np_argmax p) as [idx|e] eqn:H1; cbn [bind];
      [|intro H; injection H as _ _ H; discriminate].
    destruct (py_index EMOTIONS idx) as [e|e] eqn:H2; cbn [bind];
      [|intro H; injection H as _ _ H; discriminate].
    destruct (py_index p idx) as [c|e'] eqn:H3; cbn [bind];
      [|intro H; injection H as _ _ H; discriminate].
    intro H. injection H as _ <- <-. right.
    cbn [source audio_features facial_landmarks emotion confidence].
    split; [reflexivity|]. split; [reflexivity|]. split; [discriminate|].
    split; [reflexivity|].
    destruct (argmax_selection _ _ _ _ H1 H2 H3) as [Hf [He Hc]].
    exists idx. split; [exact Hf|]. split; [exact He | exact Hc].
  - intro H. injection H as _ <- <-. left. split; reflexivity.
Qed.

(** ** Model loading and health *)

(** Initialising the emotion service with MediaPipe available and each
    weights file either loaded or missing (random weights are used then)
    succeeds: both statuses become ["loaded"] and [health_check] reports
    ["ready"] with every component present. *)
Theorem emotion_service_initialize_ready (det mesh : Result unit)
    (o_cnn o_fusion : LoadOutcome) (now : nat) (st : EmotionServiceState) (device : string) :
  det = Ok tt -> mesh = Ok tt ->
  o_cnn = Loaded \/ o_cnn = WeightsMissing ->
  o_fusion = Loaded \/ o_fusion = WeightsMissing ->
  snd (emotion_service_initialize det mesh o_cnn o_fusion now st) = Ok tt /\
  ms_status (es_status_cnn (fst (emotion_service_initialize det mesh o_cnn o_fusion now st))) = "loaded" /\
  ms_status (es_status_fusion (fst (emotion_service_initialize det mesh o_cnn o_fusion now st))) = "loaded" /\
  emotion_health_check device (fst (emotion_service_initialize det mesh o_cnn o_fusion now st)) =
    {| eh_status := "ready"; eh_emotion_cnn := true; eh_multimodal_fusion := true;
       eh_mediapipe := true; eh_device := device |}.
Proof.
  intros -> -> Hc Hf.
  destruct Hc as [-> | ->]; destruct Hf as [-> | ->]; repeat split.
Qed.

(** When the emotion CNN's weights fail to load with an error other than a
    missing file, [initialize] re-raises it, marks that model ["error"] and
    never loads the fusion model; yet [health_check] reports the CNN as
    loaded, since the network object was assigned before loading. *)
Theorem emotion_initialize_cnn_failure (o_fusion : LoadOutcome) (e : PyExc)
    (now0 now : nat) (device : string) :
  let st := fst (emotion_service_initialize (Ok tt) (Ok tt) (LoadFailed e) o_fusion now
                   (emotion_service_new now0)) in
  snd (emotion_service_initialize (Ok tt) (Ok tt) (LoadFailed e) o_fusion now
         (emotion_service_new now0)) = Raise e /\
  ms_status (es_status_cnn st) = "error" /\
  ms_status (es_status_fusion st) = "not_loaded" /\
  emotion_health_check device st =
    {| eh_status := "not_ready"; eh_emotion_cnn := true; eh_multimodal_fusion := false;
       eh_mediapipe := true; eh_device := device |}.
Proof. repeat split. Qed.

(** After a [reload_models] in which the CNN's weights fail to load (not a
    missing file) on a service whose fusion model was loaded, the reload
    raises and the CNN's status is ["error"], but [health_check] still
    reports ["ready"]. *)
Theorem emotion_reload_failure_still_ready (o_fusion : LoadOutcome) (e : PyExc) (now : nat)
    (st : EmotionServiceState) (device : string) :
  is_not_none (es_multimodal_model st) = true ->
  snd (emotion_service_reload (LoadFailed e) o_fusion now st) = Raise e /\
  ms_status (es_status_cnn (fst (emotion_service_reload (LoadFailed e) o_fusion now st))) = "error" /\
  eh_status (emotion_health_check device (fst (emotion_service_reload (LoadFailed e) o_fusion now st)))
    = "ready".
Proof.
  intro Hm. cbn. unfold is_not_none in Hm.
  destruct (es_multimodal_model st); [|discriminate]. repeat split.
Qed.

(** After [AudioProcessingService.initialize] (which [reload_models] runs)
    [health_check] reports ["ready"] whatever happened: the status is
    ["loaded"] when the weights loaded or were missing, and ["error"], with
    the exception re-raised, when loading failed otherwise. *)
Theorem audio_initialize_always_ready (o : LoadOutcome) (now : nat)
    (st : AudioServiceState) (device : string) :
  audio_health_check device (fst (audio_service_initialize o now st)) =
    {| ah_status := "ready"; ah_model_loaded := true; ah_device := device |} /\
  match o with
  | LoadFailed e => snd (audio_service_initialize o now st) = Raise e /\
                    ms_status (as_status (fst (audio_service_initialize o now st))) = "error"
  | _ => snd (audio_service_initialize o now st) = Ok tt /\
         ms_status (as_status (fst (audio_service_initialize o now st))) = "loaded"
  end.
Proof. destruct o; repeat split. Qed.

(** ** Speech patterns *)

Lemma insert_R_perm (x : R) (l : list R) : Permutation (insert_R x l) (x :: l).
Proof.
  induction l as [|y l IH]; cbn; [reflexivity|].
  destruct (Rle_dec x y); [reflexivity|].
  rewrite IH. apply perm_swap.
Qed.

Lemma sort_R_perm (l : list R) : Permutation (sort_R l) l.
Proof.
  induction l as [|x l IH]; cbn; [reflexivity|].
  rewrite insert_R_perm, IH. reflexivity.
Qed.

Lemma insert_R_sorted (x : R) (l : list R) :
  StronglySorted Rle l -> StronglySorted Rle (insert_R x l).
Proof.
  induction l as [|y l IH]; intro Hs; cbn.
  - repeat constructor.
  - inversion Hs as [|? ? Hl Hy]; subst.
    destruct (Rle_dec x y) as [Hxy | Hxy].
    + constructor; [exact Hs|]. constructor; [exact Hxy|].
      eapply Forall_impl; [|exact Hy]. intros z Hz. lra.
    + constructor; [apply IH, Hl|].
      apply (Permutation_Forall (Permutation_sym (insert_R_perm x l))).
      constructor; [lra | exact Hy].
Qed.

Lemma sort_R_sorted (l : list R) : StronglySorted Rle (sort_R l).
Proof.
  induction l as [|x l IH]; cbn; [constructor|]. apply insert_R_sorted, IH.
Qed.

Lemma sorted_nth_le (s : list R) (i j : nat) :
  StronglySorted Rle s -> (i <= j)%nat -> (j < length s)%nat ->
  (nth i s 0 <= nth j s 0)%R.
Proof.
  revert i j. induction s as [|a s IH]; intros i j Hs Hij Hj; cbn in Hj; [lia|].
  inversion Hs as [|? ? Hs' Ha]; subst.
  destruct i as [|i]; destruct j as [|j]; cbn [nth]; try lra; try lia.
  - rewrite Forall_forall in Ha. apply Ha, nth_In. lia.
  - apply IH; [exact Hs' | lia | lia].
Qed.

(** [np.percentile(a, q)], [0 <= q <= 100], is at least one value of the
    array: the one at the lower index of the interpolation. *)
Lemma np_percentile_above_elem (a : list R) (q : R) :
  a <> [] -> (0 <= q <= 100)%R ->
  exists x, In x a /\ (x <= np_percentile a q)%R.
Proof.
  intros Ha Hq. unfold np_percentile.
  set (s := sort_R a).
  assert (Hn : length s = length a) by (apply Permutation_length, sort_R_perm).
  assert (Hpos : (0 < length s)%nat) by (rewrite Hn; destruct a; [contradiction | cbn; lia]).
  set (idx := (q / 100 * INR (length s - 1))%R).
  assert (Hidx : (0 <= idx <= INR (length s - 1))%R).
  { unfold idx. pose proof (pos_INR (length s - 1)). split.
    - apply Rmult_le_pos; [|lra]. apply Rmult_le_pos; lra.
    - rewrite <- (Rmult_1_l (INR _)) at 2. apply Rmult_le_compat_r; [lra|].
      apply (Rmult_le_reg_r 100); [lra|]. unfold Rdiv. rewrite Rmult_assoc, Rinv_l; lra. }
  destruct (py_int_nonneg idx (proj1 Hidx)) as [I1 I2].
  unfold py_int in I1, I2. destruct (Rle_dec 0 idx) as [_|]; [|lra].
  set (lo := Z.to_nat (Int_part idx)).
  assert (Hlo : INR lo = IZR (Int_part idx))
    by (unfold lo; rewrite INR_IZR_INZ, Z2Nat.id by exact I1; reflexivity).
  assert (Hlon : (lo <= length s - 1)%nat)
    by (apply INR_le; lra).
  set (hi := Nat.min (S lo) (length s - 1)).
  assert (Hhi : (lo <= hi < length s)%nat) by (unfold hi; lia).
  pose proof (sorted_nth_le s lo hi (sort_R_sorted a) (proj1 Hhi) (proj2 Hhi)) as Hmono.
  exists (nth lo s 0%R). split.
  - apply (Permutation_in _ (sort_R_perm a)). fold s. apply nth_In. lia.
  - cbv zeta. fold s. fold idx. fold lo. fold hi.
    assert (0 <= idx - INR lo)%R by lra. nra.
Qed.

Lemma count_true_lt (thr : R) (l : list R) (x : R) :
  In x l -> (x <= thr)%R ->
  (count_true (map (fun e => if Rlt_dec thr e then true else false) l) < length l)%nat.
Proof.
  unfold count_true. induction l as [|y l IH]; intros Hin Hx; [destruct Hin|].
  cbn [map filter length].
  destruct Hin as [-> | Hin].
  - destruct (Rlt_dec thr x); [lra|].
    pose proof (filter_length_le (fun b : bool => b)
                  (map (fun e => if Rlt_dec thr e then true else false) l)) as H.
    rewrite length_map in H. lia.
  - specialize (IH Hin Hx). destruct (Rlt_dec thr y); cbn [length]; lia.
Qed.

Lemma list_sum_indicator (bs : list bool) :
  list_sum (map (fun b : bool => if b then 1%R else 0%R) bs) = INR (count_true bs).
Proof.
  unfold count_true, list_sum.
  induction bs as [|b bs IH]; cbn [map fold_right filter]; [reflexivity|].
  rewrite IH. destruct b; cbn [length]; [rewrite S_INR|]; ring.
Qed.

Lemma length_librosa_rms (y : list R) : (0 < length (librosa_rms y))%nat.
Proof. unfold librosa_rms. rewrite length_map, length_seq. lia. Qed.

(** The voice-activity ratio of [detect_speech_patterns] is always below 1:
    the frames are voiced when their RMS exceeds the 30th percentile, which
    is at least the quietest frame, so that frame never counts. *)
Theorem speech_voice_activity_below_one (A : AudioBackend) (audio : list R) :
  (0 <= voice_activity_ratio (detect_speech_patterns A audio) < 1)%R.
Proof.
  unfold detect_speech_patterns. cbv zeta. cbn [voice_activity_ratio].
  set (rms := librosa_rms audio).
  set (thr := np_percentile rms 30).
  assert (Hne : rms <> []).
  { pose proof (length_librosa_rms audio) as H. fold rms in H. destruct rms; [cbn in H; lia | discriminate]. }
  destruct (np_percentile_above_elem rms 30 Hne ltac:(lra)) as [x [Hin Hx]]. fold thr in Hx.
  pose proof (count_true_lt thr rms x Hin Hx) as Hc.
  unfold np_mean. rewrite list_sum_indicator, !length_map.
  assert (Hpos : (0 < length rms)%nat) by (apply length_librosa_rms).
  assert (0 < INR (length rms))%R by (apply lt_0_INR; exact Hpos).
  assert (INR (count_true (map (fun e => if Rlt_dec thr e then true else false) rms)) + 1
          <= INR (length rms))%R by (rewrite <- S_INR; apply le_INR; lia).
  pose proof (pos_INR (count_true (map (fun e => if Rlt_dec thr e then true else false) rms))).
  split.
  - apply Rmult_le_pos; [lra|]. apply Rlt_le, Rinv_0_lt_compat. lra.
  - apply (Rmult_lt_reg_r (INR (length rms))); [lra|].
    unfold Rdiv. rewrite Rmult_assoc, Rinv_l by lra. lra.
Qed.

Lemma list_sum_zeros (l : list R) : Forall (fun v => v = 0%R) l -> list_sum l = 0%R.
Proof.
  unfold list_sum. induction l as [|x l IH]; intro H; cbn [fold_right]; [reflexivity|].
  inversion H as [|? ? Hx Hl]; subst. rewrite IH by exact Hl. ring.
Qed.

Lemma nth_zeros (l : list R) (i : nat) : Forall (fun v => v = 0%R) l -> nth i l 0%R = 0%R.
Proof.
  intro H. destruct (Nat.lt_ge_cases i (length l)) as [Hi | Hi].
  - rewrite Forall_forall in H. apply H, nth_In, Hi.
  - apply nth_overflow, Hi.
Qed.

Lemma in_firstn_in {A} (n : nat) (l : list A) (x : A) : In x (firstn n l) -> In x l.
Proof.
  revert l. induction n as [|n IH]; intros [|a l]; cbn; try tauto.
  intros [-> | H]; [left; reflexivity | right; exact (IH l H)].
Qed.

Lemma in_skipn_in {A} (n : nat) (l : list A) (x : A) : In x (skipn n l) -> In x l.
Proof.
  revert l. induction n as [|n IH]; intros [|a l]; cbn; try tauto.
  intro H; right; exact (IH l H).
Qed.

Lemma librosa_rms_silent (y : list R) :
  Forall (fun v => v = 0%R) y -> Forall (fun v => v = 0%R) (librosa_rms y).
Proof.
  intro Hy. unfold librosa_rms. apply Forall_map, Forall_forall. intros t _.
  set (pad := repeat 0%R (frame_length / 2)).
  assert (Hpad : Forall (fun v => v = 0%R) pad)
    by (apply Forall_forall; intros v Hv; exact (repeat_spec _ _ _ Hv)).
  assert (Hp : Forall (fun v => v = 0%R) (pad ++ y ++ pad))
    by (apply Forall_app; split; [|apply Forall_app; split]; assumption).
  unfold rms_frame.
  rewrite list_sum_zeros; [rewrite Rdiv_0_l; apply R_sqrt.sqrt_0|].
  apply Forall_map. apply Forall_forall. intros v Hv.
  apply in_firstn_in, in_skipn_in in Hv. rewrite Forall_forall in Hp.
  rewrite (Hp v Hv). ring.
Qed.

(** For a silent clip (all samples zero, of any length) [detect_speech_patterns]
    finds no voice activity, a speaking rate of 0 (the division by the
    speaking time is guarded) and no energy variation. *)
Theorem speech_patterns_of_silence (A : AudioBackend) (audio : list R) :
  Forall (fun v => v = 0%R) audio ->
  voice_activity_ratio (detect_speech_patterns A audio) = 0%R /\
  speaking_rate (detect_speech_patterns A audio) = 0%R /\
  energy_variation (detect_speech_patterns A audio) = 0%R.
Proof.
  intro Hs. pose proof (librosa_rms_silent audio Hs) as Hr.
  unfold detect_speech_patterns. cbv zeta.
  cbn [voice_activity_ratio speaking_rate energy_variation].
  set (rms := librosa_rms audio) in *.
  assert (Hthr : np_percentile rms 30 = 0%R).
  { unfold np_percentile.
    assert (Hsort : Forall (fun v => v = 0%R) (sort_R rms))
      by (apply (Permutation_Forall (Permutation_sym (sort_R_perm rms))), Hr).
    rewrite !(nth_zeros _ _ Hsort). ring. }
  rewrite Hthr.
  assert (Hv : map (fun e => if Rlt_dec 0 e then true else false) rms =
               map (fun _ => false) rms).
  { apply map_ext_in. intros e He. rewrite Forall_forall in Hr. rewrite (Hr e He).
    destruct (Rlt_dec 0 0); [lra | reflexivity]. }
  rewrite Hv.
  assert (Hc : count_true (map (fun _ => false) rms) = 0%nat)
    by (unfold count_true; clear; induction (librosa_rms audio) as [|? ? IH];
        cbn; [reflexivity | exact IH]).
  rewrite Hc. split; [|split].
  - unfold np_mean. rewrite list_sum_zeros; [unfold Rdiv; ring|].
    rewrite map_map. apply Forall_map, Forall_forall. intros; reflexivity.
  - cbn [INR]. rewrite Rmult_0_l. destruct (Rlt_dec 0 0); [lra | reflexivity].
  - unfold np_std.
    assert (Hm : np_mean rms = 0%R) by (unfold np_mean; rewrite list_sum_zeros by exact Hr; unfold Rdiv; ring).
    rewrite Hm. unfold np_mean at 1. rewrite list_sum_zeros, Rdiv_0_l; [apply R_sqrt.sqrt_0|].
    apply Forall_map, Forall_forall. intros v Hvin. rewrite Forall_forall in Hr.
    rewrite (Hr v Hvin). ring.
Qed.

(** ** The [/emotion/detect] endpoint *)

(** Without a service the endpoint answers 503; with one, a request without
    an image (missing or empty) is answered with 500 and the detail
    ["Emotion detection failed: Image data is required for emotion
    detection"], whatever the audio, and the face mesh is left untouched. *)
Theorem api_detect_emotion_without_image (B : EmotionBackend) (s : FMState)
    (audio : option string) (sid : string) (req : EmotionDetectionRequest) :
  api_detect_emotion B None req =
    (None, HttpError 503 "Emotion detection service not available") /\
  api_detect_emotion B (Some s)
    {| req_image_data := None; req_audio_data := audio; req_session_id := sid |} =
    (Some s, HttpError 500 "Emotion detection failed: Image data is required for emotion detection") /\
  api_detect_emotion B (Some s)
    {| req_image_data := Some ""; req_audio_data := audio; req_session_id := sid |} =
    (Some s, HttpError 500 "Emotion detection failed: Image data is required for emotion detection").
Proof. repeat split. Qed.


(** ** Witnesses of the properties above *)

Lemma decode_image_data_url_witness :
  decode_base64_image_py DemoCodecs.image_codec (Some "data:image/png;base64,aW1n") =
    decode_base64_image_py DemoCodecs.image_codec (Some "aW1n") /\
  decode_base64_image_py DemoCodecs.image_codec (Some "aW1n") = Ok Demo.image0.
Proof.
  split.
  - apply (decode_image_data_url DemoCodecs.image_codec "/png;base64" "aW1n");
      [cbn; intuition discriminate | cbn; intuition discriminate |].
    reflexivity.
  - reflexivity.
Defined.

Lemma decode_audio_data_url_witness :
  decode_base64_audio_py DemoCodecs.audio_codec "data:audio/wav;base64,UklGRg==" =
    decode_base64_audio_py DemoCodecs.audio_codec "UklGRg==" /\
  decode_base64_audio_py DemoCodecs.audio_codec "UklGRg==" = Ok Demo.short_clip.
Proof.
  split; [|reflexivity].
  apply (decode_audio_data_url DemoCodecs.audio_codec "/wav;base64" "UklGRg==");
    [cbn; intuition discriminate | cbn; intuition discriminate | reflexivity].
Defined.

Lemma decode_malformed_data_url_witness :
  decode_base64_image_py DemoCodecs.image_codec (Some "data:image/png") =
    Raise (ValueError "Invalid image data") /\
  decode_base64_image_py DemoCodecs.image_codec None = Raise (ValueError "Invalid image data") /\
  decode_base64_audio_py DemoCodecs.audio_codec "data:audio/png" =
    Raise (ValueError "Invalid audio data").
Proof.
  apply (decode_malformed_data_url DemoCodecs.image_codec DemoCodecs.audio_codec "/png").
  cbn; intuition discriminate.
Defined.

Lemma extract_facial_landmarks_bbox_witness :
  exists l, extract_facial_landmarks Demo.tracking_backend None Demo.image0 =
              (Some Demo.face0, Some l) /\
            length (visibility l) = length Demo.face0.
Proof.
  eexists. split; [reflexivity|].
  destruct (extract_facial_landmarks_bbox Demo.tracking_backend None Demo.image0
              (Some Demo.face0) _ eq_refl) as (face & rest & Hf & _ & Hv & _).
  cbn in Hf. injection Hf as <- _. exact Hv.
Defined.

Lemma face_crop_nonempty_witness :
  exists l, extract_facial_landmarks Demo.tracking_backend None Demo.image0 =
              (Some Demo.face0, Some l) /\
            exists x y w h,
              preprocess_face_for_emotion Demo.tracking_backend Demo.image0 l =
                crop_resize_gray Demo.tracking_backend Demo.image0 x y w h /\
              (0 < w)%Z /\ (0 < h)%Z.
Proof.
  eexists. split; [reflexivity|].
  destruct (face_crop_nonempty Demo.tracking_backend None Demo.image0 (Some Demo.face0) _
              ltac:(cbn; lia) ltac:(cbn; lia) 
              ltac:(apply Forall_forall; intros f [<- | []];
                    apply Forall_forall; intros q [<- | [<- | []]]; cbn; lra)
              eq_refl)
    as (x & y & w & h & E & _ & _ & Hw & Hh & _).
  exists x, y, w, h. auto.
Defined.

Lemma detect_emotion_verdict_witness :
  detect_emotion Demo.no_face_backend None (Some "aW1n") None "s1" =
    (None, Ok (no_face_response "video")) /\
  (no_face_response "video" = no_face_response "video" \/
   source (no_face_response "video") = "video").
Proof.
  split; [reflexivity|].
  destruct (detect_emotion_verdict Demo.no_face_backend None None "aW1n" None "s1"
              (no_face_response "video") eq_refl) as [E | (image & l & ft & _ & _ & _ & Hs & _)].
  - left. exact E.
  - right. exact Hs.
Defined.

Lemma detect_multimodal_verdict_witness :
  detect_multimodal_emotion Demo.no_face_backend None 0%N "aW1n" "UklGRg==" "s1" =
    ((None, 0%N), Ok (no_face_response "audio")) /\
  (0%N = 0%N \/ source (no_face_response "audio") = "multimodal").
Proof.
  split; [reflexivity|].
  destruct (detect_multimodal_verdict Demo.no_face_backend None None 0%N 0%N "aW1n" "UklGRg=="
              "s1" (no_face_response "audio") eq_refl) as [[_ E] | [Hs _]].
  - left. exact E.
  - right. exact Hs.
Defined.

Lemma emotion_service_initialize_ready_witness :
  snd (emotion_service_initialize (Ok tt) (Ok tt) Loaded WeightsMissing 1
         (emotion_service_new 0)) = Ok tt /\
  eh_status (emotion_health_check "cpu"
    (fst (emotion_service_initialize (Ok tt) (Ok tt) Loaded WeightsMissing 1
            (emotion_service_new 0)))) = "ready".
Proof.
  destruct (emotion_service_initialize_ready (Ok tt) (Ok tt) Loaded WeightsMissing 1
              (emotion_service_new 0) "cpu" eq_refl eq_refl (or_introl eq_refl)
              (or_intror eq_refl)) as [Hr [_ [_ Hh]]].
  split; [exact Hr | rewrite Hh; reflexivity].
Defined.

Lemma emotion_reload_failure_still_ready_witness :
  eh_status (emotion_health_check "cpu"
    (fst (emotion_service_reload (LoadFailed (ValueError "size mismatch")) Loaded 2
            (fst (emotion_service_initialize (Ok tt) (Ok tt) Loaded Loaded 1
                    (emotion_service_new 0)))))) = "ready".
Proof.
  apply (emotion_reload_failure_still_ready Loaded (ValueError "size mismatch") 2
           (fst (emotion_service_initialize (Ok tt) (Ok tt) Loaded Loaded 1
                   (emotion_service_new 0))) "cpu").
  reflexivity.
Defined.

Lemma speech_patterns_of_silence_witness :
  voice_activity_ratio (detect_speech_patterns Demo.audio_backend [0; 0; 0]%R) = 0%R.
Proof.
  apply (speech_patterns_of_silence Demo.audio_backend [0; 0; 0]%R).
  repeat constructor.
Defined.
